(** * SimpleDataTool: a shallow embedding of [simple_data_tool.py]

    The tool holds four record collections parsed from JSON and answers
    aggregate queries by scanning them.  Every method of the class is
    embedded as a computation of the monad [M]: it receives the instance
    ([self]), may raise a Python exception, and hands the instance back.
    Python's [int] is [Z], its [float] is the IEEE 754 binary64 type of
    [PrimFloat], its [str] is [string] (bytes of the UTF-8 encoding, whose
    lexicographic order is the order of code points). *)

From Stdlib Require Import ZArith List String Ascii Bool Lia.
From Stdlib Require Import PrimFloat FloatOps SpecFloat.
From Stdlib Require Import Permutation.
Import ListNotations.
Open Scope Z_scope.
Set Warnings "-inexact-float".

(** ** Exceptions and results *)

Inductive exn : Type :=
| KeyError
| TypeError
| ValueError
| IndexError
| OverflowError
| ZeroDivisionError.

Inductive result (A : Type) : Type :=
| Ok (a : A)
| Raise (e : exn).

Arguments Ok {A} a.
Arguments Raise {A} e.

(** ** JSON records

    A record is a JSON object.  The fields the queries read are typed as the
    data files have them.  A key that a record may lack, or that may hold
    JSON [null], is a [field]. *)

Inductive field (A : Type) : Type :=
| Absent
| Null
| Val (a : A).

Arguments Absent {A}.
Arguments Null {A}.
Arguments Val {A} a.

(** An [int] object: its address and its value.  Only the operator [is]
    looks at the address. *)
Record int_obj : Type := IntObj { addr : positive; ival : Z }.

Record agent : Type := Agent {
  agent_id : Z;
  agent_state : string;
  secondary_language : field string
}.

Record claim_handler : Type := ClaimHandler {
  claim_handler_id : Z
}.

Record claim : Type := Claim {
  claim_id : Z;
  disaster_id : Z;
  claim_handler_assigned_id : Z;
  agent_assigned_id : field int_obj;
  estimate_cost : field float;
  severity_rating : Z;
  status : string
}.

Record disaster : Type := Disaster {
  disaster_rec_id : Z;
  disaster_state : string;
  declared_date : string;
  end_date : string
}.

(** The instance: the four private attributes set by [__init__]. *)
Record SimpleDataTool : Type := Tool {
  agent_data : list agent;
  claim_handler_data : list claim_handler;
  claim_data : list claim;
  disaster_data : list disaster
}.

(** ** The method monad: the instance is threaded, exceptions propagate *)

Definition M (A : Type) : Type := SimpleDataTool -> result A * SimpleDataTool.

Definition ret {A} (a : A) : M A := fun self => (Ok a, self).

Definition throw {A} (e : exn) : M A := fun self => (Raise e, self).

Definition bind {A B} (m : M A) (k : A -> M B) : M B :=
  fun self =>
    match m self with
    | (Ok a, self') => k a self'
    | (Raise e, self') => (Raise e, self')
    end.

Definition lift {A} (r : result A) : M A := fun self => (r, self).

Declare Scope py_scope.
Delimit Scope py_scope with py.
Notation "x <- m ;; k" := (bind m (fun x => k))
  (at level 61, m at next level, right associativity) : py_scope.
Notation "' pat <- m ;; k" := (bind m (fun x => match x with pat => k end))
  (at level 61, pat pattern, m at next level, right associativity) : py_scope.
Open Scope py_scope.

(** Reading the private attributes. *)
Definition self_agent_data : M (list agent) :=
  fun self => (Ok (agent_data self), self).
Definition self_claim_handler_data : M (list claim_handler) :=
  fun self => (Ok (claim_handler_data self), self).
Definition self_claim_data : M (list claim) :=
  fun self => (Ok (claim_data self), self).
Definition self_disaster_data : M (list disaster) :=
  fun self => (Ok (disaster_data self), self).

(** [for x in xs: body], the local variables of the loop being [acc]. *)
Fixpoint for_each {X A} (xs : list X) (acc : A) (body : A -> X -> M A) : M A :=
  match xs with
  | [] => ret acc
  | x :: xs' => acc' <- body acc x ;; for_each xs' acc' body
  end.

(** ** Python operations on the values

    They do not touch the instance: each is a [result], and a method runs
    it with [lift]. *)

(** [record[key]] *)
Definition getitem {A} (f : field A) : result (option A) :=
  match f with
  | Absent => Raise KeyError
  | Null => Ok None
  | Val a => Ok (Some a)
  end.

(** [total += value] where [total] is a float and [value] a float or None. *)
Definition float_iadd (total : float) (value : option float) : result float :=
  match value with
  | None => Raise TypeError
  | Some c => Ok (total + c)%float
  end.

(** Conversion of an int to the nearest float, as the arithmetic on mixed
    operands does it. *)
Definition float_of_int (z : Z) : result float :=
  let f := SF2Prim (binary_normalize prec emax z 0 false) in
  if is_infinity f then Raise OverflowError else Ok f.

(** [x / n], a float by an int. *)
Definition float_div_int (x : float) (n : Z) : result float :=
  match float_of_int n with
  | Raise e => Raise e
  | Ok d => if n =? 0 then Raise ZeroDivisionError else Ok (x / d)%float
  end.

(** [a is b] on int objects.  CPython shares one object for each int from
    -5 to 256; any other int object is identical to itself only. *)
Definition is_small_int (z : Z) : bool := (-5 <=? z) && (z <=? 256).

Definition int_is (a b : int_obj) : bool :=
  (ival a =? ival b) && (is_small_int (ival a) || Pos.eqb (addr a) (addr b)).

(** [value is agent_id], the value being an int object or None. *)
Definition py_is (value : option int_obj) (agent_id : int_obj) : bool :=
  match value with
  | None => false
  | Some a => int_is a agent_id
  end.

(** The numbers a total of the agent map can be, and None. *)
Inductive pyval : Type :=
| PyNone
| PyInt (z : Z)
| PyFloat (f : float).

Definition is_not_none (v : pyval) : bool :=
  match v with PyNone => false | _ => true end.

(** [a + b] *)
Definition py_add (a b : pyval) : result pyval :=
  match a, b with
  | PyInt x, PyInt y => Ok (PyInt (x + y))
  | PyInt x, PyFloat y =>
      match float_of_int x with
      | Ok fx => Ok (PyFloat (fx + y))
      | Raise e => Raise e
      end
  | PyFloat x, PyInt y =>
      match float_of_int y with
      | Ok fy => Ok (PyFloat (x + fy))
      | Raise e => Raise e
      end
  | PyFloat x, PyFloat y => Ok (PyFloat (x + y))
  | _, _ => Raise TypeError
  end.

(** [claim.get('agent_assigned_id', None)]: the key of the agent map. *)
Definition get_agent_assigned_id (f : field int_obj) : option Z :=
  match f with
  | Val a => Some (ival a)
  | _ => None
  end.

(** [claim.get('estimate_cost', 0)] *)
Definition get_estimate_cost (f : field float) : pyval :=
  match f with
  | Absent => PyInt 0
  | Null => PyNone
  | Val x => PyFloat x
  end.

Definition option_eqb {A} (eqb : A -> A -> bool) (x y : option A) : bool :=
  match x, y with
  | None, None => true
  | Some a, Some b => eqb a b
  | _, _ => false
  end.

(** ** Dictionaries: entries in insertion order, one per key *)

Section Dict.
Variables K V : Type.
Variable key_eqb : K -> K -> bool.

Definition dict : Type := list (K * V).

Fixpoint dict_get (d : dict) (k : K) : option V :=
  match d with
  | [] => None
  | (k', v) :: d' => if key_eqb k' k then Some v else dict_get d' k
  end.

(** [k in d] *)
Definition dict_contains (d : dict) (k : K) : bool :=
  match dict_get d k with Some _ => true | None => false end.

(** [d[k]] *)
Definition dict_getitem (d : dict) (k : K) : result V :=
  match dict_get d k with
  | Some v => Ok v
  | None => Raise KeyError
  end.

(** [d[k] = v]: a known key keeps its place, a new one goes last. *)
Fixpoint dict_set (d : dict) (k : K) (v : V) : dict :=
  match d with
  | [] => [(k, v)]
  | (k', v') :: d' =>
      if key_eqb k' k then (k', v) :: d' else (k', v') :: dict_set d' k v
  end.

Definition dict_keys (d : dict) : list K := map fst d.
Definition dict_values (d : dict) : list V := map snd d.
Definition dict_items (d : dict) : list (K * V) := d.
End Dict.

Arguments dict_get {K V} key_eqb d k.
Arguments dict_contains {K V} key_eqb d k.
Arguments dict_getitem {K V} key_eqb d k.
Arguments dict_set {K V} key_eqb d k v.
Arguments dict_keys {K V} d.
Arguments dict_values {K V} d.
Arguments dict_items {K V} d.

(** [max(xs)] and [min(xs)] *)
Definition py_max (xs : list Z) : result Z :=
  match xs with
  | [] => Raise ValueError
  | x :: xs' => Ok (fold_left Z.max xs' x)
  end.

Definition py_min (xs : list Z) : result Z :=
  match xs with
  | [] => Raise ValueError
  | x :: xs' => Ok (fold_left Z.min xs' x)
  end.

(** [sorted(xs)] on strings: ascending, equal elements in their order. *)
Fixpoint insert_sorted (x : string) (l : list string) : list string :=
  match l with
  | [] => [x]
  | y :: l' => if String.ltb y x then y :: insert_sorted x l' else x :: l
  end.

Definition sorted (xs : list string) : list string :=
  fold_right insert_sorted [] xs.

(** [xs[0]] *)
Definition index0 {A} (xs : list A) : result A :=
  match xs with
  | [] => Raise IndexError
  | x :: _ => Ok x
  end.

(** ** Accessors *)

Definition get_agent_data : M (list agent) := self_agent_data.
Definition get_claim_handler_data : M (list claim_handler) :=
  self_claim_handler_data.
Definition get_disaster_data : M (list disaster) := self_disaster_data.
Definition get_claim_data : M (list claim) := self_claim_data.

(** ** Test set one *)

Definition get_num_closed_claims : M Z :=
  claims <- self_claim_data ;;
  for_each claims 0 (fun num_closed_claims claim =>
    if (status claim =? "Closed")%string
    then ret (num_closed_claims + 1)
    else ret num_closed_claims).

Definition get_num_claims_for_claim_handler_id (claim_handler_id_arg : Z)
  : M Z :=
  claims <- self_claim_data ;;
  for_each claims 0 (fun num_claims claim =>
    if claim_handler_assigned_id claim =? claim_handler_id_arg
    then ret (num_claims + 1)
    else ret num_claims).

Definition get_num_disasters_for_state (state : string) : M Z :=
  disasters <- self_disaster_data ;;
  for_each disasters 0 (fun stateDisasters disaster =>
    if (disaster_state disaster =? state)%string
    then ret (stateDisasters + 1)
    else ret stateDisasters).

(** ** Test set two *)

Definition get_total_claim_cost_for_disaster (disaster_id_arg : Z)
  : M (option float) :=
  claims <- self_claim_data ;;
  totalDisasterCost <-
    for_each claims 0%float (fun totalDisasterCost claim =>
      if disaster_id claim =? disaster_id_arg
      then cost <- lift (getitem (estimate_cost claim)) ;;
           lift (float_iadd totalDisasterCost cost)
      else ret totalDisasterCost) ;;
  if (totalDisasterCost =? 0)%float
  then ret None
  else ret (Some totalDisasterCost).

Definition get_state_with_most_disasters : M string :=
  disasters <- self_disaster_data ;;
  state_disaster_count <-
    for_each disasters [] (fun state_disaster_count disaster =>
      let state := disaster_state disaster in
      if dict_contains String.eqb state_disaster_count state
      then n <- lift (dict_getitem String.eqb state_disaster_count state) ;;
           ret (dict_set String.eqb state_disaster_count state (n + 1))
      else ret (dict_set String.eqb state_disaster_count state 1)) ;;
  max_disasters <- lift (py_max (dict_values state_disaster_count)) ;;
  let states_max_disasters :=
    map fst (filter (fun '(_, count) => count =? max_disasters)
                    (dict_items state_disaster_count)) in
  lift (index0 (sorted states_max_disasters)).

Definition get_state_with_least_disasters : M string :=
  disasters <- self_disaster_data ;;
  state_disaster_count <-
    for_each disasters [] (fun state_disaster_count disaster =>
      let state := disaster_state disaster in
      if dict_contains String.eqb state_disaster_count state
      then n <- lift (dict_getitem String.eqb state_disaster_count state) ;;
           ret (dict_set String.eqb state_disaster_count state (n + 1))
      else ret (dict_set String.eqb state_disaster_count state 1)) ;;
  min_disasters <- lift (py_min (dict_values state_disaster_count)) ;;
  let states_min_disasters :=
    map fst (filter (fun '(_, count) => count =? min_disasters)
                    (dict_items state_disaster_count)) in
  lift (index0 (sorted states_min_disasters)).

(** A language is a string or None (JSON null).  The result is a language
    of the data or the empty string. *)
Definition lang_eqb : option string -> option string -> bool :=
  option_eqb String.eqb.

Definition get_most_spoken_agent_language_by_state (state : string)
  : M (option string) :=
  agents <- self_agent_data ;;
  language_count <-
    for_each agents [] (fun language_count agent =>
      if (agent_state agent =? state)%string
      then lang <- lift (getitem (secondary_language agent)) ;;
           if dict_contains lang_eqb language_count lang
           then n <- lift (dict_getitem lang_eqb language_count lang) ;;
                ret (dict_set lang_eqb language_count lang (n + 1))
           else ret (dict_set lang_eqb language_count lang 1)
      else ret language_count) ;;
  match language_count with
  | [] => ret (Some EmptyString)
  | _ =>
      max_count <- lift (py_max (dict_values language_count)) ;;
      let most_spoken_languages :=
        map fst (filter (fun '(_, count) => count =? max_count)
                        (dict_items language_count)) in
      lift (index0 most_spoken_languages)
  end.

Definition get_num_of_open_claims_for_agent_and_severity
    (agent_id_arg : int_obj) (min_severity_rating : Z) : M (option Z) :=
  if (min_severity_rating <? 1) || (min_severity_rating >? 10)
  then ret (Some (-1))
  else
    claims <- self_claim_data ;;
    num_claims <-
      for_each claims 0 (fun num_claims claim =>
        assigned <- lift (getitem (agent_assigned_id claim)) ;;
        if py_is assigned agent_id_arg
        then if (severity_rating claim >=? min_severity_rating)
                && negb (status claim =? "Closed")%string
             then ret (num_claims + 1)
             else ret num_claims
        else ret num_claims) ;;
    if num_claims =? 0 then ret None else ret (Some num_claims).

(** ** Test set three *)

Definition get_num_disasters_declared_after_end_date : M Z :=
  disasters <- self_disaster_data ;;
  for_each disasters 0 (fun count disaster =>
    if String.ltb (end_date disaster) (declared_date disaster)
    then ret (count + 1)
    else ret count).

Definition agent_key_eqb : option Z -> option Z -> bool := option_eqb Z.eqb.

Section Rounding.
(** The builtin [round(x, 2)] on floats. *)
Variable round2 : float -> float.

(** [round(v, 2)]: an int is its own rounding. *)
Definition py_round2 (v : pyval) : result pyval :=
  match v with
  | PyNone => Raise TypeError
  | PyInt z => Ok (PyInt z)
  | PyFloat f => Ok (PyFloat (round2 f))
  end.

Definition get_average_claim_cost_for_claim_handler
    (claim_handler_id_arg : Z) : M (option float) :=
  n <- get_num_claims_for_claim_handler_id claim_handler_id_arg ;;
  if n =? 0 then ret None
  else
    claims <- self_claim_data ;;
    ' (total_claim_cost, num_claims) <-
      for_each claims (0%float, 0)
        (fun '(total_claim_cost, num_claims) claim =>
          if claim_handler_assigned_id claim =? claim_handler_id_arg
          then cost <- lift (getitem (estimate_cost claim)) ;;
               total <- lift (float_iadd total_claim_cost cost) ;;
               ret (total, num_claims + 1)
          else ret (total_claim_cost, num_claims)) ;;
    quotient <- lift (float_div_int total_claim_cost num_claims) ;;
    ret (Some (round2 quotient)).

(** The last loop walks the entries while it rewrites their values; an
    entry is read before it is rewritten and no key is added, so the
    entries met are those of the dictionary when the loop starts. *)
Definition build_map_of_agents_to_total_claim_cost
  : M (dict (option Z) pyval) :=
  agents <- self_agent_data ;;
  agent_to_total_claim_cost <-
    for_each agents [] (fun agent_to_total_claim_cost agent =>
      ret (dict_set agent_key_eqb agent_to_total_claim_cost
                    (Some (agent_id agent)) (PyInt 0))) ;;
  claims <- self_claim_data ;;
  agent_to_total_claim_cost <-
    for_each claims agent_to_total_claim_cost
      (fun agent_to_total_claim_cost claim =>
        let agent_id := get_agent_assigned_id (agent_assigned_id claim) in
        let cost := get_estimate_cost (estimate_cost claim) in
        if dict_contains agent_key_eqb agent_to_total_claim_cost agent_id
           && is_not_none cost
        then total <- lift (dict_getitem agent_key_eqb
                              agent_to_total_claim_cost agent_id) ;;
             total' <- lift (py_add total cost) ;;
             ret (dict_set agent_key_eqb agent_to_total_claim_cost
                           agent_id total')
        else ret (dict_set agent_key_eqb agent_to_total_claim_cost
                           agent_id PyNone)) ;;
  for_each (dict_items agent_to_total_claim_cost) agent_to_total_claim_cost
    (fun agent_to_total_claim_cost '(agent_id, total_cost) =>
      if is_not_none total_cost
      then rounded <- lift (py_round2 total_cost) ;;
           ret (dict_set agent_key_eqb agent_to_total_claim_cost
                         agent_id rounded)
      else ret agent_to_total_claim_cost).
End Rounding.

(** The two methods without a body return None. *)
Definition calculate_disaster_claim_density (disaster_id_arg : Z) : M unit :=
  ret tt.

Definition get_top_three_months_with_highest_num_of_claims_desc : M unit :=
  ret tt.

(** ** The queries as one interface *)

Inductive query : Type :=
| GetAgentData
| GetClaimHandlerData
| GetDisasterData
| GetClaimData
| NumClosedClaims
| NumClaimsForClaimHandlerId (claim_handler_id_arg : Z)
| NumDisastersForState (state : string)
| TotalClaimCostForDisaster (disaster_id_arg : Z)
| AverageClaimCostForClaimHandler (claim_handler_id_arg : Z)
| StateWithMostDisasters
| StateWithLeastDisasters
| MostSpokenAgentLanguageByState (state : string)
| NumOfOpenClaimsForAgentAndSeverity (agent_id_arg : int_obj)
                                      (min_severity_rating : Z)
| NumDisastersDeclaredAfterEndDate
| BuildMapOfAgentsToTotalClaimCost
| CalculateDisasterClaimDensity (disaster_id_arg : Z)
| TopThreeMonthsWithHighestNumOfClaimsDesc.

Inductive answer : Type :=
| Agents (l : list agent)
| ClaimHandlers (l : list claim_handler)
| Disasters (l : list disaster)
| Claims (l : list claim)
| Int (n : Z)
| IntOrNone (n : option Z)
| FloatOrNone (x : option float)
| Str (s : string)
| StrOrNone (s : option string)
| AgentMap (m : dict (option Z) pyval)
| NoValue.

Definition fmap {A B} (f : A -> B) (m : M A) : M B := a <- m ;; ret (f a).

Definition call (round2 : float -> float) (q : query) : M answer :=
  match q with
  | GetAgentData => fmap Agents get_agent_data
  | GetClaimHandlerData => fmap ClaimHandlers get_claim_handler_data
  | GetDisasterData => fmap Disasters get_disaster_data
  | GetClaimData => fmap Claims get_claim_data
  | NumClosedClaims => fmap Int get_num_closed_claims
  | NumClaimsForClaimHandlerId h =>
      fmap Int (get_num_claims_for_claim_handler_id h)
  | NumDisastersForState s => fmap Int (get_num_disasters_for_state s)
  | TotalClaimCostForDisaster d =>
      fmap FloatOrNone (get_total_claim_cost_for_disaster d)
  | AverageClaimCostForClaimHandler h =>
      fmap FloatOrNone (get_average_claim_cost_for_claim_handler round2 h)
  | StateWithMostDisasters => fmap Str get_state_with_most_disasters
  | StateWithLeastDisasters => fmap Str get_state_with_least_disasters
  | MostSpokenAgentLanguageByState s =>
      fmap StrOrNone (get_most_spoken_agent_language_by_state s)
  | NumOfOpenClaimsForAgentAndSeverity a r =>
      fmap IntOrNone (get_num_of_open_claims_for_agent_and_severity a r)
  | NumDisastersDeclaredAfterEndDate =>
      fmap Int get_num_disasters_declared_after_end_date
  | BuildMapOfAgentsToTotalClaimCost =>
      fmap AgentMap (build_map_of_agents_to_total_claim_cost round2)
  | CalculateDisasterClaimDensity d =>
      fmap (fun _ => NoValue) (calculate_disaster_claim_density d)
  | TopThreeMonthsWithHighestNumOfClaimsDesc =>
      fmap (fun _ => NoValue)
           get_top_three_months_with_highest_num_of_claims_desc
  end.

(** ** Specification side *)

(** The claims of a disaster, in file order. *)
Definition claims_of_disaster (d : Z) (claims : list claim) : list claim :=
  filter (fun c => disaster_id c =? d) claims.

Definition has_cost (c : claim) : Prop := exists x, estimate_cost c = Val x.

Definition cost_or_zero (c : claim) : float :=
  match estimate_cost c with Val x => x | _ => 0%float end.

(** Sum of floats as Python's accumulation computes it: left to right from
    [0.0]. *)
Definition float_sum (xs : list float) : float :=
  fold_left PrimFloat.add xs 0%float.

(** Two claims of disaster 1, costing 100.005 and 50.00. *)
Definition two_claims_tool : SimpleDataTool :=
  Tool [] []
       [ Claim 1 1 1 Absent (Val 100.005%float) 5 "Open";
         Claim 2 1 1 Absent (Val 50%float) 3 "Closed" ]
       [].

(** The claims assigned to the agent [a] that are not closed and whose
    severity is at least [r]: what the open-claims query is to count. *)
Definition open_claims_of_agent (a r : Z) (claims : list claim) : list claim :=
  filter (fun c =>
            match agent_assigned_id c with
            | Val x => ival x =? a
            | _ => false
            end
            && negb (status c =? "Closed")%string
            && (severity_rating c >=? r))
         claims.

(** The claims the loop of the open-claims query counts: those whose agent
    id is the very object [a]. *)
Definition open_claims_of_object (a : int_obj) (r : Z) (claims : list claim)
  : list claim :=
  filter (fun c =>
            match agent_assigned_id c with
            | Val x => int_is x a
            | _ => false
            end
            && ((severity_rating c >=? r)
                && negb (status c =? "Closed")%string))
         claims.

Definition has_agent_key (c : claim) : Prop := agent_assigned_id c <> Absent.

(** A method is read-only when it hands the instance back as it got it. *)
Definition read_only {A} (m : M A) : Prop :=
  forall self, snd (m self) = self.

(** One claim of agent 1000, open, of severity 5.  The int 1000 parsed from
    the claims file is the object at address 1001. *)
Definition agent_1000_tool : SimpleDataTool :=
  Tool [Agent 1000 "Ohio" (Val "Spanish"%string)] []
       [ Claim 1 1 1 (Val (IntObj 1001 1000)) (Val 10%float) 5 "Open" ]
       [].

(** Two claims that name agent 7, who is not in the agent collection. *)
Definition dangling_agent_tool : SimpleDataTool :=
  Tool [Agent 1 "Ohio" (Val "Spanish"%string)] []
       [ Claim 1 1 1 (Val (IntObj 7 7)) (Val 10%float) 5 "Open";
         Claim 2 1 1 (Val (IntObj 7 7)) (Val 20%float) 5 "Open" ]
       [].

(** How often [k] occurs in [ks]. *)
Fixpoint occurrences {K} (key_eqb : K -> K -> bool) (k : K) (ks : list K) : Z :=
  match ks with
  | [] => 0
  | k' :: ks' => (if key_eqb k' k then 1 else 0) + occurrences key_eqb k ks'
  end.

(** One turn of a counting loop, [d[k] += 1] for a known key and [d[k] = 1]
    for a new one, and the loop over the keys [ks]. *)
Definition bump {K} (key_eqb : K -> K -> bool) (d : dict K Z) (k : K)
  : dict K Z :=
  match dict_get key_eqb d k with
  | Some n => dict_set key_eqb d k (n + 1)
  | None => dict_set key_eqb d k 1
  end.

Definition tally {K} (key_eqb : K -> K -> bool) (ks : list K) (d : dict K Z)
  : dict K Z :=
  fold_left (bump key_eqb) ks d.

Definition lookup0 {K} (key_eqb : K -> K -> bool) (d : dict K Z) (k : K) : Z :=
  match dict_get key_eqb d k with Some n => n | None => 0 end.

(** The states of the disasters, in file order, and the number of disasters
    of a state. *)
Definition disaster_states (disasters : list disaster) : list string :=
  map disaster_state disasters.

Definition disasters_in_state (state : string) (disasters : list disaster) : Z :=
  occurrences String.eqb state (disaster_states disasters).

(** Twelve disasters in New Jersey and twelve in Delaware, one in Ohio. *)
Definition tie_tool : SimpleDataTool :=
  Tool [] [] []
       (map (fun s => Disaster 0 s "2023-01-01" "2023-01-02")
            (repeat "New Jersey"%string 12 ++ repeat "Delaware"%string 12
             ++ ["Ohio"%string])).

(** The agents of a state and their secondary languages, in file order.  A
    language is a string or None. *)
Definition agents_of_state (state : string) (agents : list agent) : list agent :=
  filter (fun a => (agent_state a =? state)%string) agents.

Definition has_language (a : agent) : Prop := secondary_language a <> Absent.

Definition language_of (a : agent) : option string :=
  match secondary_language a with
  | Val s => Some s
  | _ => None
  end.

Definition languages_of_state (state : string) (agents : list agent)
  : list (option string) :=
  map language_of (agents_of_state state agents).

(** Ohio: Spanish, French, French, Spanish; Spanish is met first. *)
Definition language_tool : SimpleDataTool :=
  Tool [ Agent 1 "Ohio" (Val "Spanish"%string);
         Agent 2 "Ohio" (Val "French"%string);
         Agent 3 "Texas" (Val "Arabic"%string);
         Agent 4 "Ohio" (Val "French"%string);
         Agent 5 "Ohio" (Val "Spanish"%string) ]
       [] [] [].

(** The ids of the agent collection, the key a claim has in the agent map,
    and the claims of an agent, in file order. *)
Definition agent_ids (agents : list agent) : list Z := map agent_id agents.

Definition claim_key (c : claim) : option Z :=
  get_agent_assigned_id (agent_assigned_id c).

Definition claims_of_key (k : option Z) (claims : list claim) : list claim :=
  filter (fun c => agent_key_eqb (claim_key c) k) claims.

Definition claims_of_agent (a : Z) (claims : list claim) : list claim :=
  claims_of_key (Some a) claims.

Definition known_agent (agents : list agent) (c : claim) : Prop :=
  exists a, claim_key c = Some a /\ In a (agent_ids agents).

(** The three loops of the agent map.  [add_claim] is the body of the loop
    over the claims. *)
Definition init_map (agents : list agent) (d : dict (option Z) pyval)
  : dict (option Z) pyval :=
  fold_left (fun d a => dict_set agent_key_eqb d (Some (agent_id a)) (PyInt 0))
            agents d.

Definition add_claim (agent_to_total_claim_cost : dict (option Z) pyval)
    (claim : claim) : M (dict (option Z) pyval) :=
  let agent_id := get_agent_assigned_id (agent_assigned_id claim) in
  let cost := get_estimate_cost (estimate_cost claim) in
  if dict_contains agent_key_eqb agent_to_total_claim_cost agent_id
     && is_not_none cost
  then total <- lift (dict_getitem agent_key_eqb
                        agent_to_total_claim_cost agent_id) ;;
       total' <- lift (py_add total cost) ;;
       ret (dict_set agent_key_eqb agent_to_total_claim_cost agent_id total')
  else ret (dict_set agent_key_eqb agent_to_total_claim_cost agent_id PyNone).

Definition rounded (round2 : float -> float) (v : pyval) : pyval :=
  match v with
  | PyFloat f => PyFloat (round2 f)
  | _ => v
  end.

(** What the loop over the claims does to one key: [st] is the entry of the
    key, if any, and [costs] are the costs of its claims. *)
Definition key_step (st : option pyval) (cost : pyval) : result pyval :=
  match st with
  | Some total => if is_not_none cost then py_add total cost else Ok PyNone
  | None => Ok PyNone
  end.

Fixpoint key_run (st : option pyval) (costs : list pyval)
  : result (option pyval) :=
  match costs with
  | [] => Ok st
  | c :: cs =>
      match key_step st c with
      | Ok v => key_run (Some v) cs
      | Raise e => Raise e
      end
  end.

Definition costs_of_key (k : option Z) (claims : list claim) : list pyval :=
  map (fun c => get_estimate_cost (estimate_cost c)) (claims_of_key k claims).

(** A model of the builtin [round(x, 2)] for the examples: the exact value
    of the float is rounded to a multiple of 1/100, halves to the even one,
    and the float nearest to that decimal is returned. *)
Definition round_half_even_div (a b : Z) : Z :=
  let q := a / b in
  let r := a mod b in
  if 2 * r <? b then q
  else if 2 * r >? b then q + 1
  else if Z.even q then q else q + 1.

Definition nearest_float_of_ratio (s : bool) (n d : Z) : float :=
  let scaled := Z.shiftl n 64 in
  let q := scaled / d in
  let sticky := if scaled mod d =? 0 then 0 else 1 in
  SF2Prim (binary_normalize prec emax (2 * q + sticky) (-65) s).

Definition round_hundredths (x : float) : float :=
  match Prim2SF x with
  | S754_finite s m e =>
      let n := if 0 <=? e
               then Z.pos m * 2 ^ e * 100
               else round_half_even_div (Z.pos m * 100) (2 ^ (- e)) in
      nearest_float_of_ratio s n 100
  | _ => x
  end.

(** Agents 1, 2 and 3; two claims of agent 1, none of the others. *)
Definition clean_claims_tool : SimpleDataTool :=
  Tool [ Agent 1 "Ohio" (Val "Spanish"%string);
         Agent 2 "Ohio" Null;
         Agent 3 "Texas" (Val "French"%string) ]
       []
       [ Claim 1 1 1 (Val (IntObj 1 1)) (Val 100.005%float) 5 "Open";
         Claim 2 1 2 (Val (IntObj 1 1)) (Val 50%float) 3 "Closed" ]
       [].

(** Agents 1 and 2; a claim of the unknown agent 7, a claim of agent 1 with
    a null cost, a claim without agent. *)
Definition none_entries_tool : SimpleDataTool :=
  Tool [ Agent 1 "Ohio" (Val "Spanish"%string);
         Agent 2 "Ohio" Null ]
       []
       [ Claim 1 1 1 (Val (IntObj 7 7)) (Val 10%float) 5 "Open";
         Claim 2 1 2 (Val (IntObj 1 1)) Null 3 "Closed";
         Claim 3 1 2 Absent (Val 5%float) 3 "Closed" ]
       [].

(** The closed claims, a claim with another status, the claims of a
    handler, and the disasters declared after they ended. *)
Definition is_closed (c : claim) : bool := (status c =? "Closed")%string.

Definition closed_claims (claims : list claim) : list claim :=
  filter is_closed claims.

Definition set_status (c : claim) (s : string) : claim :=
  Claim (claim_id c) (disaster_id c) (claim_handler_assigned_id c)
        (agent_assigned_id c) (estimate_cost c) (severity_rating c) s.

Definition claims_of_handler (h : Z) (claims : list claim) : list claim :=
  filter (fun c => claim_handler_assigned_id c =? h) claims.

Definition declared_after_end (d : disaster) : bool :=
  String.ltb (end_date d) (declared_date d).

(** The exception the first claim without a float cost gives when its cost
    is read and added: KeyError for a missing key, TypeError for null. *)
Fixpoint first_missing_cost (claims : list claim) : option exn :=
  match claims with
  | [] => None
  | c :: cs =>
      match estimate_cost c with
      | Absent => Some KeyError
      | Null => Some TypeError
      | Val _ => first_missing_cost cs
      end
  end.

(** Three claims, the second one closed. *)
Definition three_claims : list claim :=
  [ Claim 1 1 1 (Val (IntObj 1 1)) (Val 10%float) 5 "Open";
    Claim 2 1 2 (Val (IntObj 2 2)) (Val 20%float) 7 "Closed";
    Claim 3 2 2 (Val (IntObj 2 2)) (Val 30%float) 9 "Received" ].

(** What the language query does once the languages are counted. *)
Definition pick_language (language_count : dict (option string) Z)
  : result (option string) :=
  match language_count with
  | [] => Ok (Some EmptyString)
  | _ =>
      match py_max (dict_values language_count) with
      | Ok max_count =>
          index0 (map fst (filter (fun '(_, count) => count =? max_count)
                                  (dict_items language_count)))
      | Raise e => Raise e
      end
  end.

(** A claim poisons the entry of its key when its cost is null or its key
    is no id of the agent collection: the entry becomes None.  Two claims
    are in conflict when they have the same key, the earlier one poisons it
    and the later one has a cost that is not null. *)
Definition poisons (agents : list agent) (c : claim) : Prop :=
  estimate_cost c = Null \/ ~ known_agent agents c.

Definition conflict (agents : list agent) (claims : list claim) : Prop :=
  exists pre c1 mid c2 post,
    claims = pre ++ c1 :: mid ++ c2 :: post
    /\ claim_key c1 = claim_key c2
    /\ poisons agents c1
    /\ estimate_cost c2 <> Null.

(** The values an entry holds while the claims are added: the int 0 or a
    float, or None once poisoned. *)
Definition clean (v : pyval) : Prop := v = PyInt 0 \/ exists f, v = PyFloat f.

Definition cost_ok (c : pyval) : Prop := c = PyNone \/ clean c.

Definition good_state (st : option pyval) : Prop :=
  st = None \/ st = Some PyNone \/ exists v, st = Some v /\ clean v.

Definition key_conflict (st : option pyval) (costs : list pyval) : Prop :=
  exists pre c post,
    costs = pre ++ c :: post
    /\ is_not_none c = true
    /\ (st = Some PyNone \/ (st = None /\ pre <> []) \/ In PyNone pre).

(** The instance after a sequence of queries has been asked. *)
Definition after_queries (round2 : float -> float) (qs : list query)
    (self : SimpleDataTool) : SimpleDataTool :=
  fold_left (fun s q => snd (call round2 q s)) qs self.

(** An agent without the language key, a claim without the agent key. *)
Definition lacks_language (a : agent) : Prop := secondary_language a = Absent.

Definition lacks_agent_key (c : claim) : Prop := agent_assigned_id c = Absent.

(** * Theorems *)

(** ** The method monad *)

Lemma read_only_ret {A} (a : A) : read_only (ret a).
Proof. intro self. reflexivity. Qed.

Lemma read_only_throw {A} (e : exn) : read_only (@throw A e).
Proof. intro self. reflexivity. Qed.

Lemma read_only_lift {A} (r : result A) : read_only (lift r).
Proof. intro self. reflexivity. Qed.

Lemma read_only_bind {A B} (m : M A) (k : A -> M B) :
  read_only m -> (forall a, read_only (k a)) -> read_only (bind m k).
Proof.
  intros Hm Hk self. unfold bind.
  specialize (Hm self). destruct (m self) as [[a|e] self']; simpl in Hm.
  - subst self'. apply Hk.
  - exact Hm.
Qed.

Lemma read_only_for_each {X A} (xs : list X) (body : A -> X -> M A) :
  (forall acc x, read_only (body acc x)) ->
  forall acc, read_only (for_each xs acc body).
Proof.
  intro Hbody. induction xs as [|x xs IH]; intro acc; simpl.
  - apply read_only_ret.
  - apply read_only_bind; [apply Hbody | intro a; apply IH].
Qed.

Lemma read_only_self_agent_data : read_only self_agent_data.
Proof. intro self. reflexivity. Qed.

Lemma read_only_self_claim_handler_data : read_only self_claim_handler_data.
Proof. intro self. reflexivity. Qed.

Lemma read_only_self_claim_data : read_only self_claim_data.
Proof. intro self. reflexivity. Qed.

Lemma read_only_self_disaster_data : read_only self_disaster_data.
Proof. intro self. reflexivity. Qed.

Create HintDb read_only.
#[local] Hint Resolve read_only_ret read_only_throw read_only_lift
  read_only_self_agent_data read_only_self_claim_handler_data
  read_only_self_claim_data read_only_self_disaster_data : read_only.

(** Walks the text of a method: every bind, loop and branch. *)
Ltac read_only_step :=
  match goal with
  | |- read_only (bind _ _) => apply read_only_bind
  | |- read_only (for_each _ _ _) => apply read_only_for_each
  | |- read_only (fmap _ _) => unfold fmap
  | |- read_only (if ?b then _ else _) => destruct b
  | |- read_only (match ?x with _ => _ end) => destruct x
  | |- read_only _ => solve [auto with read_only]
  | |- forall _, _ => intro
  | p : (_ * _)%type |- _ => destruct p; simpl
  end.

Ltac prove_read_only := repeat read_only_step.

Lemma call_read_only (round2 : float -> float) (q : query) :
  read_only (call round2 q).
Proof.
  destruct q; simpl; unfold fmap;
    (apply read_only_bind; [|intro; apply read_only_ret]).
  - apply read_only_self_agent_data.
  - apply read_only_self_claim_handler_data.
  - apply read_only_self_disaster_data.
  - apply read_only_self_claim_data.
  - unfold get_num_closed_claims. prove_read_only.
  - unfold get_num_claims_for_claim_handler_id. prove_read_only.
  - unfold get_num_disasters_for_state. prove_read_only.
  - unfold get_total_claim_cost_for_disaster. prove_read_only.
  - unfold get_average_claim_cost_for_claim_handler,
      get_num_claims_for_claim_handler_id. prove_read_only.
  - unfold get_state_with_most_disasters. prove_read_only.
  - unfold get_state_with_least_disasters. prove_read_only.
  - unfold get_most_spoken_agent_language_by_state. prove_read_only.
  - unfold get_num_of_open_claims_for_agent_and_severity. prove_read_only.
  - unfold get_num_disasters_declared_after_end_date. prove_read_only.
  - unfold build_map_of_agents_to_total_claim_cost. prove_read_only.
  - apply read_only_ret.
  - apply read_only_ret.
Qed.

(** C9: a query leaves the instance, hence its four collections, as it
    found it, and the same query asked again right after gives the same
    result, be it a value or an exception. *)
Theorem queries_are_read_only_and_repeatable :
  forall (round2 : float -> float) (q : query) (self : SimpleDataTool),
    let first := call round2 q self in
    let second := call round2 q (snd first) in
    snd first = self /\ snd second = self /\ fst second = fst first.
Proof.
  intros round2 q self first second.
  assert (H1 : snd first = self) by apply call_read_only.
  subst second. rewrite H1. fold first. auto.
Qed.

(** ** Dictionaries *)

Section DictFacts.
Context {K V : Type}.
Variable key_eqb : K -> K -> bool.
Hypothesis key_eqb_eq : forall a b, key_eqb a b = true <-> a = b.

Lemma key_eqb_refl (k : K) : key_eqb k k = true.
Proof. now apply key_eqb_eq. Qed.

Lemma key_eqb_neq (a b : K) : a <> b -> key_eqb a b = false.
Proof.
  intro H. destruct (key_eqb a b) eqn:E; [|reflexivity].
  apply key_eqb_eq in E. contradiction.
Qed.

Lemma key_eq_dec (a b : K) : a = b \/ a <> b.
Proof.
  destruct (key_eqb a b) eqn:E.
  - left. now apply key_eqb_eq.
  - right. intro H. apply key_eqb_eq in H. congruence.
Qed.

Lemma dict_get_set_same (d : dict K V) (k : K) (v : V) :
  dict_get key_eqb (dict_set key_eqb d k v) k = Some v.
Proof.
  induction d as [|[k' v'] d IH]; simpl.
  - now rewrite key_eqb_refl.
  - destruct (key_eqb k' k) eqn:E; simpl; rewrite E; [reflexivity|exact IH].
Qed.

Lemma dict_get_set_other (d : dict K V) (k k' : K) (v : V) :
  k <> k' ->
  dict_get key_eqb (dict_set key_eqb d k v) k' = dict_get key_eqb d k'.
Proof.
  intro Hne. induction d as [|[k1 v1] d IH]; simpl.
  - now rewrite key_eqb_neq.
  - destruct (key_eqb k1 k) eqn:E; simpl.
    + apply key_eqb_eq in E. subst k1. now rewrite key_eqb_neq.
    + now rewrite IH.
Qed.

Lemma dict_get_In (d : dict K V) (k : K) (v : V) :
  dict_get key_eqb d k = Some v -> In (k, v) d.
Proof.
  induction d as [|[k1 v1] d IH]; simpl; [discriminate|].
  destruct (key_eqb k1 k) eqn:E.
  - apply key_eqb_eq in E. intro H. injection H as <-. subst. now left.
  - intro H. right. now apply IH.
Qed.

Lemma dict_get_None (d : dict K V) (k : K) :
  dict_get key_eqb d k = None <-> ~ In k (dict_keys d).
Proof.
  induction d as [|[k1 v1] d IH]; simpl.
  - tauto.
  - destruct (key_eqb k1 k) eqn:E.
    + apply key_eqb_eq in E. split; [discriminate | intro H; tauto].
    + rewrite IH. split; [|tauto].
      intros H [H1|H1]; [|tauto].
      apply key_eqb_eq in H1. congruence.
Qed.

Lemma In_dict_get (d : dict K V) (k : K) (v : V) :
  NoDup (dict_keys d) -> In (k, v) d -> dict_get key_eqb d k = Some v.
Proof.
  induction d as [|[k1 v1] d IH]; simpl; [tauto|].
  intros Hnd [H|H].
  - injection H as -> ->. now rewrite key_eqb_refl.
  - inversion Hnd as [|? ? Hnotin Hnd']; subst.
    destruct (key_eqb k1 k) eqn:E.
    + apply key_eqb_eq in E. subst k1. exfalso. apply Hnotin.
      unfold dict_keys. change k with (fst (k, v)). now apply in_map.
    + now apply IH.
Qed.

Lemma dict_keys_set (d : dict K V) (k : K) (v : V) :
  dict_keys (dict_set key_eqb d k v)
  = if dict_contains key_eqb d k then dict_keys d else dict_keys d ++ [k].
Proof.
  unfold dict_contains.
  induction d as [|[k1 v1] d IH]; simpl; [reflexivity|].
  destruct (key_eqb k1 k) eqn:E; simpl; [reflexivity|].
  rewrite IH. now destruct (dict_get key_eqb d k).
Qed.

Lemma dict_contains_In (d : dict K V) (k : K) :
  dict_contains key_eqb d k = true <-> In k (dict_keys d).
Proof.
  unfold dict_contains. pose proof (dict_get_None d k) as H.
  destruct (dict_get key_eqb d k) as [v|] eqn:E.
  - split; [|reflexivity]. intros _.
    apply dict_get_In in E. unfold dict_keys.
    change k with (fst (k, v)). now apply in_map.
  - split; [discriminate|]. intro Hin. exfalso. now apply (proj1 H).
Qed.
End DictFacts.

(** ** Counting loops *)

Section TallyFacts.
Context {K : Type}.
Variable key_eqb : K -> K -> bool.
Hypothesis key_eqb_eq : forall a b, key_eqb a b = true <-> a = b.

Lemma NoDup_dict_set {V} (d : dict K V) (k : K) (v : V) :
  NoDup (dict_keys d) -> NoDup (dict_keys (dict_set key_eqb d k v)).
Proof.
  intro Hnd. rewrite dict_keys_set.
  destruct (dict_contains key_eqb d k) eqn:E; [exact Hnd|].
  apply NoDup_app; [exact Hnd | repeat constructor; intros [] |].
  intros a Ha [<-|[]].
  apply (dict_contains_In key_eqb key_eqb_eq) in Ha. congruence.
Qed.

Lemma occurrences_nonneg (k : K) (ks : list K) :
  0 <= occurrences key_eqb k ks.
Proof.
  induction ks as [|k' ks IH]; simpl; [lia|].
  destruct (key_eqb k' k); lia.
Qed.

Lemma occurrences_In (k : K) (ks : list K) :
  In k ks <-> 1 <= occurrences key_eqb k ks.
Proof.
  induction ks as [|k' ks IH]; simpl; [split; [tauto|lia]|].
  pose proof (occurrences_nonneg k ks).
  destruct (key_eqb k' k) eqn:E.
  - apply key_eqb_eq in E. split; [lia | now left].
  - rewrite <- IH. split; [|tauto].
    intros [H1|H1]; [|exact H1].
    apply key_eqb_eq in H1. congruence.
Qed.

Lemma occurrences_app (k : K) (xs ys : list K) :
  occurrences key_eqb k (xs ++ ys)
  = occurrences key_eqb k xs + occurrences key_eqb k ys.
Proof. induction xs as [|x xs IH]; simpl; [reflexivity | rewrite IH; lia]. Qed.

Lemma lookup0_bump (d : dict K Z) (k' k : K) :
  lookup0 key_eqb (bump key_eqb d k') k
  = lookup0 key_eqb d k + (if key_eqb k' k then 1 else 0).
Proof.
  unfold lookup0, bump.
  destruct (key_eqb k' k) eqn:E.
  - apply key_eqb_eq in E. subst k'.
    destruct (dict_get key_eqb d k) as [n|] eqn:G;
      rewrite (dict_get_set_same key_eqb key_eqb_eq); lia.
  - assert (Hne : k' <> k).
    { intro H. apply key_eqb_eq in H. congruence. }
    destruct (dict_get key_eqb d k') as [n|];
      rewrite (dict_get_set_other key_eqb key_eqb_eq) by exact Hne; lia.
Qed.

Lemma lookup0_tally (ks : list K) :
  forall (d : dict K Z) (k : K),
    lookup0 key_eqb (tally key_eqb ks d) k
    = lookup0 key_eqb d k + occurrences key_eqb k ks.
Proof.
  unfold tally. induction ks as [|k' ks IH]; intros d k; simpl; [lia|].
  rewrite IH, lookup0_bump. lia.
Qed.

Lemma dict_keys_bump (d : dict K Z) (k : K) :
  dict_keys (bump key_eqb d k)
  = if dict_contains key_eqb d k then dict_keys d else dict_keys d ++ [k].
Proof.
  unfold bump, dict_contains.
  destruct (dict_get key_eqb d k) eqn:E;
    rewrite dict_keys_set;
    unfold dict_contains; now rewrite E.
Qed.

Lemma NoDup_bump (d : dict K Z) (k : K) :
  NoDup (dict_keys d) -> NoDup (dict_keys (bump key_eqb d k)).
Proof.
  unfold bump. destruct (dict_get key_eqb d k); apply NoDup_dict_set.
Qed.

Lemma NoDup_tally (ks : list K) :
  forall d : dict K Z,
    NoDup (dict_keys d) -> NoDup (dict_keys (tally key_eqb ks d)).
Proof.
  unfold tally. induction ks as [|k ks IH]; intros d Hnd; simpl;
    [exact Hnd | apply IH, NoDup_bump, Hnd].
Qed.

Lemma dict_keys_tally_prefix (ks : list K) :
  forall d : dict K Z,
    exists extra, dict_keys (tally key_eqb ks d) = dict_keys d ++ extra.
Proof.
  unfold tally. induction ks as [|k ks IH]; intro d; simpl.
  - exists []. now rewrite app_nil_r.
  - destruct (IH (bump key_eqb d k)) as [extra Hextra].
    rewrite Hextra, dict_keys_bump.
    destruct (dict_contains key_eqb d k).
    + now exists extra.
    + exists (k :: extra). now rewrite <- app_assoc.
Qed.

Lemma dict_keys_tally_In (ks : list K) :
  forall (d : dict K Z) (k : K),
    In k (dict_keys (tally key_eqb ks d)) <-> In k (dict_keys d) \/ In k ks.
Proof.
  unfold tally. induction ks as [|k' ks IH]; intros d k; simpl; [tauto|].
  rewrite IH, dict_keys_bump.
  destruct (dict_contains key_eqb d k') eqn:E.
  - apply (dict_contains_In key_eqb key_eqb_eq) in E.
    split; [tauto|]. intros [H|[H|H]]; auto. subst. auto.
  - rewrite in_app_iff. simpl. tauto.
Qed.

(** The dictionary a counting loop builds from nothing: every key met,
    once, with the number of times it was met. *)
Lemma tally_entries (ks : list K) (k : K) (n : Z) :
  In (k, n) (tally key_eqb ks []) <->
  In k ks /\ n = occurrences key_eqb k ks.
Proof.
  assert (Hnd : NoDup (dict_keys (tally key_eqb ks (@nil (K * Z))))).
  { apply NoDup_tally. constructor. }
  pose proof (lookup0_tally ks [] k) as Hl. unfold lookup0 in Hl.
  simpl in Hl.
  assert (Hk : In k (dict_keys (tally key_eqb ks [])) <-> In k ks).
  { rewrite dict_keys_tally_In. simpl. tauto. }
  split.
  - intro Hin. split.
    + apply Hk. unfold dict_keys. change k with (fst (k, n)).
      now apply in_map.
    + apply (In_dict_get key_eqb key_eqb_eq _ _ _ Hnd) in Hin.
      rewrite Hin in Hl. exact Hl.
  - intros [Hin ->].
    apply (dict_get_In key_eqb key_eqb_eq).
    destruct (dict_get key_eqb (tally key_eqb ks []) k) as [m|] eqn:G.
    + now rewrite Hl.
    + apply (dict_get_None key_eqb key_eqb_eq) in G.
      exfalso. apply G, Hk, Hin.
Qed.
End TallyFacts.

(** ** The order of strings and [sorted] *)

Lemma ascii_compare_trans (a b c : ascii) :
  Ascii.compare a b <> Gt -> Ascii.compare b c <> Gt ->
  Ascii.compare a c <> Gt.
Proof.
  unfold Ascii.compare. rewrite !N.compare_gt_iff. lia.
Qed.

Lemma string_compare_trans (x : string) :
  forall y z : string,
    String.compare x y <> Gt -> String.compare y z <> Gt ->
    String.compare x z <> Gt.
Proof.
  induction x as [|a x IH]; intros [|b y] [|c z]; simpl;
    try congruence.
  destruct (Ascii.compare a b) eqn:Eab; [| |congruence].
  - apply Ascii.compare_eq_iff in Eab. subst b.
    destruct (Ascii.compare a c) eqn:Eac; try congruence.
    apply IH.
  - intros _. destruct (Ascii.compare b c) eqn:Ebc; [| |congruence].
    + apply Ascii.compare_eq_iff in Ebc. subst c. rewrite Eab. congruence.
    + intros _.
      assert (H : Ascii.compare a c <> Gt).
      { apply (ascii_compare_trans a b c); congruence. }
      destruct (Ascii.compare a c) eqn:Eac; try congruence.
      apply Ascii.compare_eq_iff in Eac. subst c.
      rewrite Ascii.compare_antisym, Eab in Ebc. discriminate.
Qed.

Lemma string_leb_trans (x y z : string) :
  String.leb x y = true -> String.leb y z = true -> String.leb x z = true.
Proof.
  unfold String.leb. intros Hxy Hyz.
  pose proof (string_compare_trans x y z) as H.
  destruct (String.compare x y), (String.compare y z),
    (String.compare x z); try reflexivity; try discriminate;
    exfalso; apply H; congruence.
Qed.

Lemma string_leb_refl (x : string) : String.leb x x = true.
Proof. destruct (String.leb_total x x); assumption. Qed.

Lemma string_ltb_leb (x y : string) :
  String.ltb x y = true -> String.leb x y = true.
Proof. unfold String.ltb, String.leb. now destruct (String.compare x y). Qed.

Lemma string_not_ltb_leb (x y : string) :
  String.ltb y x = false -> String.leb x y = true.
Proof.
  unfold String.ltb, String.leb. rewrite (String.compare_antisym x y).
  now destruct (String.compare y x).
Qed.

(** The first element of a sorted list is in the list and before all. *)
Lemma index0_sorted (l : list string) :
  l <> [] ->
  exists h, index0 (sorted l) = Ok h /\ In h l
            /\ forall y, In y l -> String.leb h y = true.
Proof.
  induction l as [|x l IH]; [congruence|]. intros _.
  destruct l as [|x' l'].
  - exists x. simpl. split; [reflexivity | split; [now left|]].
    intros y [<-|[]]. apply string_leb_refl.
  - destruct IH as (h & Hh & Hin & Hmin); [discriminate|].
    change (sorted (x :: x' :: l')) with (insert_sorted x (sorted (x' :: l'))).
    destruct (sorted (x' :: l')) as [|h' rest]; [discriminate|].
    simpl in Hh. injection Hh as ->.
    simpl insert_sorted. destruct (String.ltb h x) eqn:E.
    + exists h. split; [reflexivity | split; [now right|]].
      intros y [<-|Hy]; [now apply string_ltb_leb | now apply Hmin].
    + exists x. split; [reflexivity | split; [now left|]].
      intros y [<-|Hy]; [apply string_leb_refl|].
      apply string_leb_trans with h;
        [now apply string_not_ltb_leb | now apply Hmin].
Qed.

(** ** [max] and [min] *)

Lemma fold_left_max_spec (xs : list Z) :
  forall x, let m := fold_left Z.max xs x in
            In m (x :: xs) /\ forall v, In v (x :: xs) -> v <= m.
Proof.
  induction xs as [|y xs IH]; intro x; simpl.
  - split; [now left | intros v [<-|[]]; lia].
  - destruct (IH (Z.max x y)) as [Hin Hle]. simpl in Hin, Hle. split.
    + destruct Hin as [Hin|Hin]; [|now right; right].
      rewrite <- Hin. destruct (Z.max_spec x y) as [[_ ->]|[_ ->]]; auto.
    + intros v [<-|[<-|Hv]].
      * specialize (Hle (Z.max x y) (or_introl eq_refl)). lia.
      * specialize (Hle (Z.max x y) (or_introl eq_refl)). lia.
      * apply Hle. now right.
Qed.

Lemma fold_left_min_spec (xs : list Z) :
  forall x, let m := fold_left Z.min xs x in
            In m (x :: xs) /\ forall v, In v (x :: xs) -> m <= v.
Proof.
  induction xs as [|y xs IH]; intro x; simpl.
  - split; [now left | intros v [<-|[]]; lia].
  - destruct (IH (Z.min x y)) as [Hin Hle]. simpl in Hin, Hle. split.
    + destruct Hin as [Hin|Hin]; [|now right; right].
      rewrite <- Hin. destruct (Z.min_spec x y) as [[_ ->]|[_ ->]]; auto.
    + intros v [<-|[<-|Hv]].
      * specialize (Hle (Z.min x y) (or_introl eq_refl)). lia.
      * specialize (Hle (Z.min x y) (or_introl eq_refl)). lia.
      * apply Hle. now right.
Qed.

Lemma py_max_spec (xs : list Z) :
  xs <> [] ->
  exists m, py_max xs = Ok m /\ In m xs /\ forall v, In v xs -> v <= m.
Proof.
  destruct xs as [|x xs]; [congruence|]. intros _.
  exists (fold_left Z.max xs x). split; [reflexivity|].
  apply fold_left_max_spec.
Qed.

Lemma py_min_spec (xs : list Z) :
  xs <> [] ->
  exists m, py_min xs = Ok m /\ In m xs /\ forall v, In v xs -> m <= v.
Proof.
  destruct xs as [|x xs]; [congruence|]. intros _.
  exists (fold_left Z.min xs x). split; [reflexivity|].
  apply fold_left_min_spec.
Qed.

(** The keys a comprehension keeps: those whose count is [m]. *)
Lemma keys_with_count {K} (d : dict K Z) (m : Z) (k : K) :
  In k (map fst (filter (fun '(_, count) => count =? m) (dict_items d)))
  <-> In (k, m) d.
Proof.
  unfold dict_items. rewrite in_map_iff. split.
  - intros [[k' c] [Hk Hin]]. simpl in Hk. subst k'.
    apply filter_In in Hin as [Hin Hc]. apply Z.eqb_eq in Hc. now subst c.
  - intro Hin. exists (k, m). split; [reflexivity|].
    apply filter_In. split; [exact Hin | apply Z.eqb_refl].
Qed.

(** ** The total claim cost of a disaster *)

Lemma total_cost_loop (d : Z) (self : SimpleDataTool) :
  forall (claims : list claim) (acc : float),
    Forall has_cost (claims_of_disaster d claims) ->
    for_each claims acc (fun totalDisasterCost claim =>
      if disaster_id claim =? d
      then cost <- lift (getitem (estimate_cost claim)) ;;
           lift (float_iadd totalDisasterCost cost)
      else ret totalDisasterCost) self
    = (Ok (fold_left PrimFloat.add
             (map cost_or_zero (claims_of_disaster d claims)) acc), self).
Proof.
  induction claims as [|c claims IH]; intros acc Hall; simpl.
  - reflexivity.
  - unfold claims_of_disaster in *. simpl in Hall.
    unfold bind at 1.
    destruct (disaster_id c =? d) eqn:E.
    + inversion Hall as [|? ? [x Hx] Hrest]; subst.
      simpl. unfold cost_or_zero at 2. rewrite Hx. simpl.
      unfold bind. simpl. now apply IH.
    + simpl. now apply IH.
Qed.

(** C1: the total claim cost of a disaster is the "no data" sentinel [None]
    exactly when the sum of [estimate_cost] over the claims of that disaster
    compares equal to zero (so also when no claim matches), and is that sum,
    as it stands, otherwise. *)
Theorem total_claim_cost_none_iff_zero_sum :
  forall (self : SimpleDataTool) (d : Z),
    Forall has_cost (claims_of_disaster d (claim_data self)) ->
    let total :=
      float_sum (map cost_or_zero (claims_of_disaster d (claim_data self))) in
    (fst (get_total_claim_cost_for_disaster d self) = Ok None
       <-> (total =? 0)%float = true)
    /\ ((total =? 0)%float = false ->
        fst (get_total_claim_cost_for_disaster d self) = Ok (Some total))
    /\ (claims_of_disaster d (claim_data self) = [] ->
        fst (get_total_claim_cost_for_disaster d self) = Ok None).
Proof.
  intros self d Hall total.
  assert (Hrun : fst (get_total_claim_cost_for_disaster d self)
                 = Ok (if (total =? 0)%float then None else Some total)).
  { unfold get_total_claim_cost_for_disaster, bind at 1, self_claim_data.
    unfold bind. rewrite (total_cost_loop d self _ _ Hall).
    fold (float_sum (map cost_or_zero (claims_of_disaster d (claim_data self)))).
    fold total. destruct (total =? 0)%float; reflexivity. }
  repeat split.
  - rewrite Hrun. destruct (total =? 0)%float; [reflexivity | discriminate].
  - intro Hz. rewrite Hrun, Hz. reflexivity.
  - intro Hz. rewrite Hrun, Hz. reflexivity.
  - intro Hnil. rewrite Hrun. subst total. rewrite Hnil. reflexivity.
Qed.

Lemma total_claim_cost_none_iff_zero_sum_witness :
  Forall has_cost (claims_of_disaster 1 (claim_data two_claims_tool))
  /\ fst (get_total_claim_cost_for_disaster 1 two_claims_tool)
     = Ok (Some 150.005%float).
Proof.
  assert (H : Forall has_cost (claims_of_disaster 1 (claim_data two_claims_tool))).
  { repeat constructor; eexists; reflexivity. }
  split; [exact H|].
  apply (proj1 (proj2 (total_claim_cost_none_iff_zero_sum two_claims_tool 1 H))).
  reflexivity.
Defined.

(** C2: on the claims 100.005 and 50.00 of disaster 1 the method returns the
    accumulated float 150.005 itself; it is neither 150.01 nor 150.00, the
    two values a sum rounded to the hundredths could be. *)
Theorem total_claim_cost_is_not_rounded :
  fst (get_total_claim_cost_for_disaster 1 two_claims_tool)
  = Ok (Some 150.005%float)
  /\ (150.005 =? 150.01)%float = false
  /\ (150.005 =? 150.0)%float = false.
Proof. repeat split. Qed.

(** The sum is the float the loop accumulates: 1.0 is lost when added to
    1e16, the total is 0.0 and the query answers None. *)
Example total_claim_cost_of_absorbed_cost :
  fst (get_total_claim_cost_for_disaster 1
         (Tool [] []
               [ Claim 1 1 1 Absent (Val 1e16%float) 5 "Open";
                 Claim 2 1 1 Absent (Val 1%float) 5 "Open";
                 Claim 3 1 1 Absent (Val (-1e16)%float) 5 "Open" ]
               []))
  = Ok None.
Proof. reflexivity. Qed.

(** ** The states with the most and the fewest disasters *)

Lemma count_states_loop (self : SimpleDataTool) :
  forall (disasters : list disaster) (d : dict string Z),
    for_each disasters d (fun state_disaster_count disaster =>
      let state := disaster_state disaster in
      if dict_contains String.eqb state_disaster_count state
      then n <- lift (dict_getitem String.eqb state_disaster_count state) ;;
           ret (dict_set String.eqb state_disaster_count state (n + 1))
      else ret (dict_set String.eqb state_disaster_count state 1)) self
    = (Ok (tally String.eqb (disaster_states disasters) d), self).
Proof.
  induction disasters as [|x disasters IH]; intro d; simpl; [reflexivity|].
  unfold bind at 1, dict_contains, dict_getitem.
  replace (tally String.eqb (disaster_state x :: disaster_states disasters) d)
    with (tally String.eqb (disaster_states disasters)
            (bump String.eqb d (disaster_state x))) by reflexivity.
  unfold bump.
  destruct (dict_get String.eqb d (disaster_state x)); simpl; apply IH.
Qed.

Lemma get_num_disasters_for_state_counts (state : string)
    (self : SimpleDataTool) :
  get_num_disasters_for_state state self
  = (Ok (disasters_in_state state (disaster_data self)), self).
Proof.
  unfold get_num_disasters_for_state, bind, self_disaster_data,
    disasters_in_state.
  assert (H : forall ds acc,
             for_each ds acc (fun stateDisasters disaster =>
               if (disaster_state disaster =? state)%string
               then ret (stateDisasters + 1)
               else ret stateDisasters) self
             = (Ok (acc + occurrences String.eqb state (disaster_states ds)),
                self)).
  { induction ds as [|x ds IH]; intro acc;
      cbn [for_each disaster_states map occurrences].
    - unfold ret. now rewrite Z.add_0_r.
    - unfold bind at 1.
      destruct (disaster_state x =? state)%string; unfold ret at 1;
        cbv beta iota; rewrite IH;
        (apply f_equal2; [apply f_equal; unfold disaster_states; lia
                         | reflexivity]). }
  now rewrite H.
Qed.

(** What the grouping holds when some disaster is loaded. *)
Lemma state_counts_nonempty (disasters : list disaster) :
  disasters <> [] ->
  dict_values (tally String.eqb (disaster_states disasters) []) <> [].
Proof.
  destruct disasters as [|x disasters]; [congruence|]. intros _ Hnil.
  assert (Hin : In (disaster_state x,
                    occurrences String.eqb (disaster_state x)
                      (disaster_states (x :: disasters)))
                   (tally String.eqb (disaster_states (x :: disasters)) [])).
  { apply (tally_entries String.eqb String.eqb_eq).
    split; [now left | reflexivity]. }
  apply (in_map snd) in Hin. unfold dict_values in Hnil.
  rewrite Hnil in Hin. destruct Hin.
Qed.

Lemma most_disasters_result (self : SimpleDataTool) :
  disaster_data self <> [] ->
  exists s,
    get_state_with_most_disasters self = (Ok s, self)
    /\ In s (disaster_states (disaster_data self))
    /\ (forall t, disasters_in_state t (disaster_data self)
                  <= disasters_in_state s (disaster_data self))
    /\ (forall t, disasters_in_state t (disaster_data self)
                  = disasters_in_state s (disaster_data self) ->
                  String.leb s t = true).
Proof.
  intro Hne. unfold get_state_with_most_disasters, disasters_in_state.
  unfold bind at 1, self_disaster_data. unfold bind at 1.
  rewrite count_states_loop.
  set (states := disaster_states (disaster_data self)).
  set (d := tally String.eqb states []).
  pose proof (tally_entries String.eqb String.eqb_eq states) as Hent.
  fold d in Hent.
  destruct (py_max_spec (dict_values d)) as (m & Hmax & Hm_in & Hm_le).
  { now apply state_counts_nonempty. }
  unfold bind, lift. rewrite Hmax.
  apply in_map_iff in Hm_in as [[k0 m0] [Hk0 Hin0]]. simpl in Hk0. subst m0.
  set (l := map fst (filter (fun '(_, count) => count =? m) (dict_items d))).
  destruct (index0_sorted l) as (h & Hh & Hin & Hmin).
  { intro Hl. apply (keys_with_count d m k0) in Hin0. fold l in Hin0.
    rewrite Hl in Hin0. destruct Hin0. }
  rewrite Hh. exists h.
  apply keys_with_count, Hent in Hin as [Hh_in Hm].
  split; [reflexivity | split; [exact Hh_in|]].
  assert (Hbound : forall t, In t states -> occurrences String.eqb t states <= m).
  { intros t Ht. apply Hm_le. unfold dict_values.
    change (occurrences String.eqb t states)
      with (snd (t, occurrences String.eqb t states)).
    apply in_map, Hent. auto. }
  apply (occurrences_In String.eqb String.eqb_eq) in Hh_in.
  split.
  - intro t. rewrite <- Hm.
    destruct (Z_le_gt_dec 1 (occurrences String.eqb t states)) as [Ht|Ht].
    + apply Hbound, (occurrences_In String.eqb String.eqb_eq), Ht.
    + lia.
  - intros t Ht. apply Hmin, keys_with_count, Hent.
    split; [|lia].
    apply (occurrences_In String.eqb String.eqb_eq). lia.
Qed.

Lemma least_disasters_result (self : SimpleDataTool) :
  disaster_data self <> [] ->
  exists s,
    get_state_with_least_disasters self = (Ok s, self)
    /\ In s (disaster_states (disaster_data self))
    /\ (forall t, In t (disaster_states (disaster_data self)) ->
                  disasters_in_state s (disaster_data self)
                  <= disasters_in_state t (disaster_data self))
    /\ (forall t, disasters_in_state t (disaster_data self)
                  = disasters_in_state s (disaster_data self) ->
                  String.leb s t = true).
Proof.
  intro Hne. unfold get_state_with_least_disasters, disasters_in_state.
  unfold bind at 1, self_disaster_data. unfold bind at 1.
  rewrite count_states_loop.
  set (states := disaster_states (disaster_data self)).
  set (d := tally String.eqb states []).
  pose proof (tally_entries String.eqb String.eqb_eq states) as Hent.
  fold d in Hent.
  destruct (py_min_spec (dict_values d)) as (m & Hmin_eq & Hm_in & Hm_le).
  { now apply state_counts_nonempty. }
  unfold bind, lift. rewrite Hmin_eq.
  apply in_map_iff in Hm_in as [[k0 m0] [Hk0 Hin0]]. simpl in Hk0. subst m0.
  set (l := map fst (filter (fun '(_, count) => count =? m) (dict_items d))).
  destruct (index0_sorted l) as (h & Hh & Hin & Hmin).
  { intro Hl. apply (keys_with_count d m k0) in Hin0. fold l in Hin0.
    rewrite Hl in Hin0. destruct Hin0. }
  rewrite Hh. exists h.
  apply keys_with_count, Hent in Hin as [Hh_in Hm].
  split; [reflexivity | split; [exact Hh_in|]].
  apply (occurrences_In String.eqb String.eqb_eq) in Hh_in.
  split.
  - intros t Ht. rewrite <- Hm. apply Hm_le. unfold dict_values.
    change (occurrences String.eqb t states)
      with (snd (t, occurrences String.eqb t states)).
    apply in_map, Hent. auto.
  - intros t Ht. apply Hmin, keys_with_count, Hent.
    split; [|lia].
    apply (occurrences_In String.eqb String.eqb_eq). lia.
Qed.

(** C7: with some disaster loaded, the most-disasters query returns a state
    whose number of disasters no state exceeds and which is first in the
    order of strings among the states with that number; the least-disasters
    query returns a state of the data whose number no state of the data
    goes below, first among the states with that number. *)
Theorem most_and_least_disasters_first_in_order :
  forall self : SimpleDataTool,
    disaster_data self <> [] ->
    let count t := disasters_in_state t (disaster_data self) in
    let states := disaster_states (disaster_data self) in
    (exists s, fst (get_state_with_most_disasters self) = Ok s
               /\ In s states
               /\ (forall t, count t <= count s)
               /\ (forall t, count t = count s -> String.leb s t = true))
    /\ (exists s, fst (get_state_with_least_disasters self) = Ok s
                  /\ In s states
                  /\ (forall t, In t states -> count s <= count t)
                  /\ (forall t, count t = count s -> String.leb s t = true)).
Proof.
  intros self Hne count states. split.
  - destruct (most_disasters_result self Hne) as (s & Hrun & H).
    exists s. now rewrite Hrun.
  - destruct (least_disasters_result self Hne) as (s & Hrun & H).
    exists s. now rewrite Hrun.
Qed.

Lemma most_and_least_disasters_first_in_order_witness :
  disaster_data tie_tool <> []
  /\ ((exists s, fst (get_state_with_most_disasters tie_tool) = Ok s
                 /\ In s (disaster_states (disaster_data tie_tool))
                 /\ (forall t, disasters_in_state t (disaster_data tie_tool)
                               <= disasters_in_state s (disaster_data tie_tool))
                 /\ (forall t, disasters_in_state t (disaster_data tie_tool)
                               = disasters_in_state s (disaster_data tie_tool) ->
                               String.leb s t = true))
      /\ (exists s, fst (get_state_with_least_disasters tie_tool) = Ok s
                    /\ In s (disaster_states (disaster_data tie_tool))
                    /\ (forall t, In t (disaster_states (disaster_data tie_tool)) ->
                                  disasters_in_state s (disaster_data tie_tool)
                                  <= disasters_in_state t (disaster_data tie_tool))
                    /\ (forall t, disasters_in_state t (disaster_data tie_tool)
                                  = disasters_in_state s (disaster_data tie_tool) ->
                                  String.leb s t = true))).
Proof.
  split; [discriminate|].
  apply (most_and_least_disasters_first_in_order tie_tool). discriminate.
Defined.

(** Delaware and New Jersey tie at twelve disasters: Delaware is returned. *)
Example delaware_before_new_jersey :
  fst (get_state_with_most_disasters tie_tool) = Ok "Delaware"%string
  /\ fst (get_state_with_least_disasters tie_tool) = Ok "Ohio"%string
  /\ disasters_in_state "Delaware" (disaster_data tie_tool) = 12
  /\ disasters_in_state "New Jersey" (disaster_data tie_tool) = 12.
Proof. repeat split. Qed.

(** C10: the two state queries raise ValueError exactly when no disaster is
    loaded. *)
Theorem state_queries_raise_iff_no_disaster :
  forall self : SimpleDataTool,
    (fst (get_state_with_most_disasters self) = Raise ValueError
     <-> disaster_data self = [])
    /\ (fst (get_state_with_least_disasters self) = Raise ValueError
        <-> disaster_data self = []).
Proof.
  intro self. split; split.
  - intro Hraise. destruct (disaster_data self) eqn:E; [reflexivity|].
    destruct (most_disasters_result self) as (s & Hrun & _).
    { rewrite E. discriminate. }
    rewrite Hrun in Hraise. discriminate.
  - intro E. unfold get_state_with_most_disasters, bind, self_disaster_data.
    now rewrite E.
  - intro Hraise. destruct (disaster_data self) eqn:E; [reflexivity|].
    destruct (least_disasters_result self) as (s & Hrun & _).
    { rewrite E. discriminate. }
    rewrite Hrun in Hraise. discriminate.
  - intro E. unfold get_state_with_least_disasters, bind, self_disaster_data.
    now rewrite E.
Qed.

(** ** The order of the keys of a counting loop *)

Lemma NoDup_split_unique {A} (x : A) (a1 : list A) :
  forall a2 b1 b2,
    NoDup (a1 ++ x :: b1) -> a1 ++ x :: b1 = a2 ++ x :: b2 -> a1 = a2.
Proof.
  induction a1 as [|y a1 IH]; intros [|z a2] b1 b2 Hnd Heq; simpl in *.
  - reflexivity.
  - injection Heq as -> ->. inversion Hnd as [|? ? Hnotin _]; subst.
    exfalso. apply Hnotin, in_elt.
  - injection Heq as -> <-. inversion Hnd as [|? ? Hnotin _]; subst.
    exfalso. apply Hnotin, in_elt.
  - injection Heq as -> Heq. inversion Hnd as [|? ? _ Hnd']; subst.
    f_equal. eapply IH; eassumption.
Qed.

(** The first entry a comprehension keeps, and the entries before it. *)
Lemma first_kept {A} (p : A -> bool) (l : list A) :
  forall h rest,
    filter p l = h :: rest ->
    exists before after,
      l = before ++ h :: after /\ p h = true
      /\ forall e, In e before -> p e = false.
Proof.
  induction l as [|x l IH]; intros h rest; simpl; [discriminate|].
  destruct (p x) eqn:E.
  - intro H. injection H as -> _. exists [], l. simpl. repeat split; tauto.
  - intro H. destruct (IH _ _ H) as (before & after & -> & Hp & Hbefore).
    exists (x :: before), after. split; [reflexivity | split; [exact Hp|]].
    intros e [<-|He]; auto.
Qed.

Section TallyOrder.
Context {K : Type}.
Variable key_eqb : K -> K -> bool.
Hypothesis key_eqb_eq : forall a b, key_eqb a b = true <-> a = b.

Lemma first_occurrence (k : K) (ks : list K) :
  In k ks -> exists pre post, ks = pre ++ k :: post /\ ~ In k pre.
Proof.
  induction ks as [|x ks IH]; [intros []|]. intro Hin.
  destruct (key_eq_dec key_eqb key_eqb_eq x k) as [->|Hne].
  - exists [], ks. split; [reflexivity | intros []].
  - destruct Hin as [Hx|Hin]; [contradiction|].
    destruct (IH Hin) as (pre & post & -> & Hpre).
    exists (x :: pre), post. split; [reflexivity|].
    intros [H|H]; auto.
Qed.

(** The keys of the dictionary come in the order in which they were first
    met: what stands before the first meeting of [k] gives the keys before
    [k]. *)
Lemma tally_keys_before (pre post : list K) (k : K) :
  ~ In k pre ->
  exists extra,
    dict_keys (tally key_eqb (pre ++ k :: post) [])
    = dict_keys (tally key_eqb pre []) ++ k :: extra.
Proof.
  intro Hpre. unfold tally. rewrite fold_left_app. simpl.
  fold (tally key_eqb pre []).
  fold (tally key_eqb post (bump key_eqb (tally key_eqb pre []) k)).
  destruct (dict_keys_tally_prefix key_eqb post
              (bump key_eqb (tally key_eqb pre []) k)) as [extra Hextra].
  exists extra. rewrite Hextra, dict_keys_bump.
  destruct (dict_contains key_eqb (tally key_eqb pre []) k) eqn:E.
  - apply (dict_contains_In key_eqb key_eqb_eq) in E.
    apply (dict_keys_tally_In key_eqb key_eqb_eq) in E.
    simpl in E. tauto.
  - now rewrite <- app_assoc.
Qed.

(** The first key of the dictionary whose count is [m] is the first key met
    in the scan whose number of occurrences is [m]. *)
Lemma first_key_with_count (ks : list K) (m : Z) (h : K) :
  index0 (map fst (filter (fun '(_, count) => count =? m)
                          (dict_items (tally key_eqb ks []))))
  = Ok h ->
  occurrences key_eqb h ks = m
  /\ exists pre post,
       ks = pre ++ h :: post
       /\ forall x, In x pre -> occurrences key_eqb x ks <> m.
Proof.
  set (d := tally key_eqb ks []). unfold dict_items. intro Hidx.
  destruct (filter (fun '(_, count) => count =? m) d) as [|[h' v] rest] eqn:F;
    [discriminate|].
  simpl in Hidx. injection Hidx as ->.
  destruct (first_kept _ _ _ _ F) as (before & after & Hd & Hv & Hbefore).
  apply Z.eqb_eq in Hv. subst v.
  pose proof (tally_entries key_eqb key_eqb_eq ks) as Hent. fold d in Hent.
  assert (Hh : In h ks /\ m = occurrences key_eqb h ks).
  { apply Hent. rewrite Hd. apply in_elt. }
  destruct Hh as [Hh_in Hm]. split; [now symmetry|].
  destruct (first_occurrence h ks Hh_in) as (pre & post & Hks & Hpre).
  exists pre, post. split; [exact Hks|].
  destruct (tally_keys_before pre post h Hpre) as [extra Hkeys].
  rewrite <- Hks in Hkeys. fold d in Hkeys.
  assert (Hnd : NoDup (dict_keys d)).
  { apply (NoDup_tally key_eqb key_eqb_eq). constructor. }
  assert (Hsame : map fst before = dict_keys (tally key_eqb pre [])).
  { apply (NoDup_split_unique h) with (b1 := map fst after) (b2 := extra).
    - unfold dict_keys in Hnd. rewrite Hd, map_app in Hnd. exact Hnd.
    - rewrite <- Hkeys. unfold dict_keys. now rewrite Hd, map_app. }
  intros x Hx.
  assert (Hx_key : In x (map fst before)).
  { rewrite Hsame. apply (dict_keys_tally_In key_eqb key_eqb_eq). now right. }
  apply in_map_iff in Hx_key as [[x' v] [Hfst Hin]]. simpl in Hfst. subst x'.
  assert (Hxv : In x ks /\ v = occurrences key_eqb x ks).
  { apply Hent. rewrite Hd. apply in_or_app. now left. }
  destruct Hxv as [_ <-].
  specialize (Hbefore _ Hin). simpl in Hbefore.
  now apply Z.eqb_neq.
Qed.
End TallyOrder.

(** ** The most spoken language of a state *)

Lemma option_eqb_eq {A} (eqb : A -> A -> bool) :
  (forall a b, eqb a b = true <-> a = b) ->
  forall x y, option_eqb eqb x y = true <-> x = y.
Proof.
  intros H [a|] [b|]; simpl; try (split; congruence).
  rewrite H. split; congruence.
Qed.

Lemma lang_eqb_eq (x y : option string) : lang_eqb x y = true <-> x = y.
Proof. apply option_eqb_eq, String.eqb_eq. Qed.

Lemma count_languages_loop (state : string) (self : SimpleDataTool) :
  forall (agents : list agent) (d : dict (option string) Z),
    Forall has_language (agents_of_state state agents) ->
    for_each agents d (fun language_count agent =>
      if (agent_state agent =? state)%string
      then lang <- lift (getitem (secondary_language agent)) ;;
           if dict_contains lang_eqb language_count lang
           then n <- lift (dict_getitem lang_eqb language_count lang) ;;
                ret (dict_set lang_eqb language_count lang (n + 1))
           else ret (dict_set lang_eqb language_count lang 1)
      else ret language_count) self
    = (Ok (tally lang_eqb (languages_of_state state agents) d), self).
Proof.
  unfold languages_of_state, agents_of_state.
  induction agents as [|a agents IH]; intros d Hall; simpl; [reflexivity|].
  simpl in Hall. unfold bind at 1.
  destruct (agent_state a =? state)%string; [|simpl; now apply IH].
  inversion Hall as [|? ? Ha Hrest]; subst.
  assert (Hget : getitem (secondary_language a) = Ok (language_of a)).
  { unfold has_language in Ha. unfold language_of.
    destruct (secondary_language a); [contradiction | reflexivity..]. }
  unfold bind at 1, lift at 1. rewrite Hget.
  unfold dict_contains, dict_getitem.
  change (tally lang_eqb (map language_of (a :: filter _ agents)) d)
    with (tally lang_eqb (map language_of
                            (filter (fun a => (agent_state a =? state)%string)
                                    agents))
            (bump lang_eqb d (language_of a))).
  unfold bump.
  destruct (dict_get lang_eqb d (language_of a)); simpl; now apply IH.
Qed.

Lemma most_spoken_language_result (state : string) (self : SimpleDataTool) :
  Forall has_language (agents_of_state state (agent_data self)) ->
  agents_of_state state (agent_data self) <> [] ->
  let langs := languages_of_state state (agent_data self) in
  exists l pre post,
    get_most_spoken_agent_language_by_state state self = (Ok l, self)
    /\ langs = pre ++ l :: post
    /\ (forall x, occurrences lang_eqb x langs <= occurrences lang_eqb l langs)
    /\ (forall x, In x pre ->
                  occurrences lang_eqb x langs < occurrences lang_eqb l langs).
Proof.
  intros Hall Hne langs.
  unfold get_most_spoken_agent_language_by_state.
  unfold bind at 1, self_agent_data. unfold bind at 1.
  rewrite (count_languages_loop state self _ _ Hall). fold langs.
  set (d := tally lang_eqb langs []).
  pose proof (tally_entries lang_eqb lang_eqb_eq langs) as Hent.
  fold d in Hent.
  assert (Hlangs : exists l0, In l0 langs).
  { subst langs. unfold languages_of_state.
    destruct (agents_of_state state (agent_data self)) as [|a rest];
      [congruence|]. exists (language_of a). now left. }
  destruct Hlangs as [l0 Hl0].
  assert (Hd0 : In (l0, occurrences lang_eqb l0 langs) d) by (apply Hent; auto).
  destruct d as [|e d'] eqn:Hd; [destruct Hd0|]. rewrite <- Hd in *.
  destruct (py_max_spec (dict_values d)) as (m & Hmax & Hm_in & Hm_le).
  { rewrite Hd. discriminate. }
  unfold bind, lift. rewrite Hmax.
  apply in_map_iff in Hm_in as [[k0 m0] [Hk0 Hin0]]. simpl in Hk0. subst m0.
  destruct (index0 (map fst (filter (fun '(_, count) => count =? m)
                                    (dict_items d)))) as [h|e'] eqn:Hidx.
  2:{ apply keys_with_count in Hin0.
      destruct (map fst (filter (fun '(_, count) => count =? m) (dict_items d)));
        [destruct Hin0 | discriminate]. }
  subst d.
  destruct (first_key_with_count lang_eqb lang_eqb_eq langs m h Hidx)
    as (Hm & pre & post & Hks & Hpre).
  exists h, pre, post. split; [reflexivity | split; [exact Hks|]].
  assert (Hbound : forall x, occurrences lang_eqb x langs <= m).
  { intro x.
    destruct (Z_le_gt_dec 1 (occurrences lang_eqb x langs)) as [Hx|Hx].
    - apply Hm_le. unfold dict_values.
      change (occurrences lang_eqb x langs)
        with (snd (x, occurrences lang_eqb x langs)).
      apply in_map, Hent. split; [|reflexivity].
      now apply (occurrences_In lang_eqb lang_eqb_eq).
    - assert (Hh : In h langs) by (rewrite Hks; apply in_elt).
      apply (occurrences_In lang_eqb lang_eqb_eq) in Hh. lia. }
  rewrite Hm. split; [exact Hbound|].
  intros x Hx. specialize (Hpre x Hx). specialize (Hbound x). lia.
Qed.

(** C8: when no agent is of the state the query returns the empty string;
    otherwise it returns the language that is met first, in file order,
    among the secondary languages of the agents of the state that are the
    most frequent: no language is more frequent, and every language met
    before it is strictly less frequent. *)
Theorem most_spoken_language_first_met :
  forall (self : SimpleDataTool) (state : string),
    Forall has_language (agents_of_state state (agent_data self)) ->
    let langs := languages_of_state state (agent_data self) in
    (agents_of_state state (agent_data self) = [] ->
     fst (get_most_spoken_agent_language_by_state state self)
     = Ok (Some EmptyString))
    /\ (agents_of_state state (agent_data self) <> [] ->
        exists l pre post,
          fst (get_most_spoken_agent_language_by_state state self) = Ok l
          /\ langs = pre ++ l :: post
          /\ (forall x, occurrences lang_eqb x langs
                        <= occurrences lang_eqb l langs)
          /\ (forall x, In x pre ->
                        occurrences lang_eqb x langs
                        < occurrences lang_eqb l langs)).
Proof.
  intros self state Hall langs. split.
  - intro Hnone.
    unfold get_most_spoken_agent_language_by_state.
    unfold bind at 1, self_agent_data. unfold bind at 1.
    rewrite (count_languages_loop state self _ _ Hall).
    unfold languages_of_state. rewrite Hnone. reflexivity.
  - intro Hsome.
    destruct (most_spoken_language_result state self Hall Hsome)
      as (l & pre & post & Hrun & H).
    exists l, pre, post. now rewrite Hrun.
Qed.

Lemma most_spoken_language_first_met_witness :
  Forall has_language (agents_of_state "Ohio" (agent_data language_tool))
  /\ (agents_of_state "Ohio" (agent_data language_tool) <> [] ->
      exists l pre post,
        fst (get_most_spoken_agent_language_by_state "Ohio" language_tool)
        = Ok l
        /\ languages_of_state "Ohio" (agent_data language_tool)
           = pre ++ l :: post
        /\ (forall x,
               occurrences lang_eqb x
                 (languages_of_state "Ohio" (agent_data language_tool))
               <= occurrences lang_eqb l
                    (languages_of_state "Ohio" (agent_data language_tool)))
        /\ (forall x, In x pre ->
               occurrences lang_eqb x
                 (languages_of_state "Ohio" (agent_data language_tool))
               < occurrences lang_eqb l
                   (languages_of_state "Ohio" (agent_data language_tool)))).
Proof.
  assert (H : Forall has_language
                (agents_of_state "Ohio" (agent_data language_tool))).
  { repeat constructor; discriminate. }
  split; [exact H|].
  apply (proj2 (most_spoken_language_first_met language_tool "Ohio" H)).
Defined.

(** Spanish and French are both spoken twice in Ohio; Spanish, met first,
    is returned, though French comes first in the alphabet.  No agent is of
    Utah. *)
Example spanish_before_french :
  fst (get_most_spoken_agent_language_by_state "Ohio" language_tool)
  = Ok (Some "Spanish"%string)
  /\ fst (get_most_spoken_agent_language_by_state "Utah" language_tool)
     = Ok (Some EmptyString).
Proof. split; reflexivity. Qed.

(** ** The map of agents to their total claim cost *)

Lemma agent_key_eqb_eq (x y : option Z) : agent_key_eqb x y = true <-> x = y.
Proof. apply option_eqb_eq, Z.eqb_eq. Qed.

Lemma dict_get_init_map (agents : list agent) :
  forall (d : dict (option Z) pyval) (k : option Z),
    dict_get agent_key_eqb (init_map agents d) k
    = if existsb (fun a => agent_key_eqb (Some (agent_id a)) k) agents
      then Some (PyInt 0)
      else dict_get agent_key_eqb d k.
Proof.
  unfold init_map. induction agents as [|a agents IH]; intros d k;
    cbn [fold_left existsb]; [reflexivity|].
  rewrite IH.
  destruct (agent_key_eqb (Some (agent_id a)) k) eqn:E;
    destruct (existsb (fun a => agent_key_eqb (Some (agent_id a)) k) agents);
    cbn [orb]; try reflexivity.
  - apply agent_key_eqb_eq in E. subst k.
    apply (dict_get_set_same agent_key_eqb agent_key_eqb_eq).
  - apply (dict_get_set_other agent_key_eqb agent_key_eqb_eq).
    intro H. apply agent_key_eqb_eq in H. congruence.
Qed.

Lemma NoDup_init_map (agents : list agent) :
  forall d : dict (option Z) pyval,
    NoDup (dict_keys d) -> NoDup (dict_keys (init_map agents d)).
Proof.
  unfold init_map. induction agents as [|a agents IH]; intros d Hnd; simpl;
    [exact Hnd|].
  apply IH, (NoDup_dict_set agent_key_eqb agent_key_eqb_eq), Hnd.
Qed.

Lemma init_loop (self : SimpleDataTool) (agents : list agent) :
  forall d : dict (option Z) pyval,
    for_each agents d (fun agent_to_total_claim_cost agent =>
      ret (dict_set agent_key_eqb agent_to_total_claim_cost
                    (Some (agent_id agent)) (PyInt 0))) self
    = (Ok (init_map agents d), self).
Proof.
  induction agents as [|a agents IH]; intro d; simpl; [reflexivity|].
  unfold bind, ret at 1. apply IH.
Qed.

Lemma init_known (agents : list agent) (a : Z) :
  In a (agent_ids agents) ->
  dict_get agent_key_eqb (init_map agents []) (Some a) = Some (PyInt 0).
Proof.
  intro Hin. rewrite dict_get_init_map.
  replace (existsb _ agents) with true; [reflexivity|].
  symmetry. apply existsb_exists.
  apply in_map_iff in Hin as [x [Hx Hin]].
  exists x. split; [exact Hin|]. rewrite Hx. apply agent_key_eqb_eq. reflexivity.
Qed.

Lemma init_unknown (agents : list agent) (k : option Z) :
  (forall a, k = Some a -> ~ In a (agent_ids agents)) ->
  dict_get agent_key_eqb (init_map agents []) k = None.
Proof.
  intro Hk. rewrite dict_get_init_map.
  destruct (existsb _ agents) eqn:E; [|reflexivity].
  apply existsb_exists in E as [x [Hin Hx]].
  apply agent_key_eqb_eq in Hx. exfalso. apply (Hk (agent_id x)).
  - now symmetry.
  - unfold agent_ids. now apply in_map.
Qed.

Lemma init_entry (agents : list agent) (k : option Z) :
  dict_get agent_key_eqb (init_map agents []) k = None
  \/ dict_get agent_key_eqb (init_map agents []) k = Some (PyInt 0).
Proof.
  rewrite dict_get_init_map. destruct (existsb _ agents); auto.
Qed.

Lemma add_claim_step (d : dict (option Z) pyval) (c : claim)
    (self : SimpleDataTool) :
  add_claim d c self
  = (match key_step (dict_get agent_key_eqb d (claim_key c))
                    (get_estimate_cost (estimate_cost c)) with
     | Ok v => Ok (dict_set agent_key_eqb d (claim_key c) v)
     | Raise e => Raise e
     end, self).
Proof.
  unfold add_claim, key_step, dict_contains, dict_getitem, claim_key.
  destruct (dict_get agent_key_eqb d
              (get_agent_assigned_id (agent_assigned_id c))) as [total|];
    simpl; [|reflexivity].
  destruct (is_not_none (get_estimate_cost (estimate_cost c)));
    [|reflexivity].
  unfold bind, lift, ret.
  now destruct (py_add total (get_estimate_cost (estimate_cost c))).
Qed.

Lemma costs_of_key_cons (k : option Z) (c : claim) (claims : list claim) :
  costs_of_key k (c :: claims)
  = if agent_key_eqb (claim_key c) k
    then get_estimate_cost (estimate_cost c) :: costs_of_key k claims
    else costs_of_key k claims.
Proof.
  unfold costs_of_key, claims_of_key. simpl.
  now destruct (agent_key_eqb (claim_key c) k).
Qed.

(** The loop over the claims, key by key. *)
Lemma claims_loop_ok (claims : list claim) :
  forall (d d' : dict (option Z) pyval) (self self' : SimpleDataTool),
    for_each claims d add_claim self = (Ok d', self') ->
    (NoDup (dict_keys d) -> NoDup (dict_keys d'))
    /\ forall k, key_run (dict_get agent_key_eqb d k) (costs_of_key k claims)
                 = Ok (dict_get agent_key_eqb d' k).
Proof.
  induction claims as [|c claims IH]; intros d d' self self' Hrun.
  - injection Hrun as -> _. split; [tauto | reflexivity].
  - simpl in Hrun. unfold bind in Hrun. rewrite add_claim_step in Hrun.
    destruct (key_step (dict_get agent_key_eqb d (claim_key c))
                (get_estimate_cost (estimate_cost c))) as [v|e] eqn:Hstep;
      [|discriminate].
    destruct (IH _ _ _ _ Hrun) as [Hnd Hkeys]. split.
    + intro H. apply Hnd, (NoDup_dict_set agent_key_eqb agent_key_eqb_eq), H.
    + intro k. rewrite costs_of_key_cons. specialize (Hkeys k).
      destruct (agent_key_eqb (claim_key c) k) eqn:E.
      * apply agent_key_eqb_eq in E. subst k. simpl. rewrite Hstep.
        now rewrite (dict_get_set_same agent_key_eqb agent_key_eqb_eq) in Hkeys.
      * rewrite (dict_get_set_other agent_key_eqb agent_key_eqb_eq) in Hkeys;
          [exact Hkeys|].
        intro H. apply agent_key_eqb_eq in H. congruence.
Qed.

Lemma claims_loop_total (self : SimpleDataTool) (claims : list claim) :
  forall d : dict (option Z) pyval,
    (forall k, exists r,
        key_run (dict_get agent_key_eqb d k) (costs_of_key k claims) = Ok r) ->
    exists d', for_each claims d add_claim self = (Ok d', self).
Proof.
  induction claims as [|c claims IH]; intros d Hruns.
  - now exists d.
  - simpl. unfold bind. rewrite add_claim_step.
    destruct (Hruns (claim_key c)) as [r Hr].
    rewrite costs_of_key_cons in Hr.
    rewrite (proj2 (agent_key_eqb_eq _ _) eq_refl) in Hr. simpl in Hr.
    destruct (key_step (dict_get agent_key_eqb d (claim_key c))
                (get_estimate_cost (estimate_cost c))) as [v|e] eqn:Hstep;
      [|discriminate].
    apply IH. intro k.
    destruct (agent_key_eqb (claim_key c) k) eqn:E.
    + apply agent_key_eqb_eq in E. subst k. exists r.
      now rewrite (dict_get_set_same agent_key_eqb agent_key_eqb_eq).
    + destruct (Hruns k) as [r' Hr']. exists r'.
      rewrite costs_of_key_cons, E in Hr'.
      rewrite (dict_get_set_other agent_key_eqb agent_key_eqb_eq);
        [exact Hr'|].
      intro H. apply agent_key_eqb_eq in H. congruence.
Qed.

Lemma round_loop (round2 : float -> float) (self : SimpleDataTool) :
  forall (entries : list (option Z * pyval)) (d : dict (option Z) pyval),
    NoDup (map fst entries) ->
    exists d',
      for_each entries d
        (fun agent_to_total_claim_cost '(agent_id, total_cost) =>
          if is_not_none total_cost
          then rounded <- lift (py_round2 round2 total_cost) ;;
               ret (dict_set agent_key_eqb agent_to_total_claim_cost
                             agent_id rounded)
          else ret agent_to_total_claim_cost) self
      = (Ok d', self)
      /\ forall k,
           dict_get agent_key_eqb d' k
           = match dict_get agent_key_eqb entries k with
             | Some v => if is_not_none v then Some (rounded round2 v)
                         else dict_get agent_key_eqb d k
             | None => dict_get agent_key_eqb d k
             end.
Proof.
  induction entries as [|[k1 v1] entries IH]; intros d Hnd.
  - exists d. split; reflexivity.
  - inversion Hnd as [|? ? Hnotin Hnd']; subst.
    set (d1 := if is_not_none v1
               then dict_set agent_key_eqb d k1 (rounded round2 v1) else d).
    destruct (IH d1 Hnd') as (d' & Hrun & Hget).
    exists d'. split.
    + simpl. unfold bind at 1. subst d1.
      destruct v1; simpl; exact Hrun.
    + intro k. rewrite Hget. simpl.
      destruct (agent_key_eqb k1 k) eqn:E.
      * apply agent_key_eqb_eq in E. subst k.
        replace (dict_get agent_key_eqb entries k1) with (@None pyval).
        2:{ symmetry. now apply (dict_get_None agent_key_eqb agent_key_eqb_eq). }
        subst d1. destruct (is_not_none v1); [|reflexivity].
        apply (dict_get_set_same agent_key_eqb agent_key_eqb_eq).
      * assert (Hd1 : dict_get agent_key_eqb d1 k = dict_get agent_key_eqb d k).
        { subst d1. destruct (is_not_none v1); [|reflexivity].
          apply (dict_get_set_other agent_key_eqb agent_key_eqb_eq).
          intro H. apply agent_key_eqb_eq in H. congruence. }
        now rewrite Hd1.
Qed.

Ltac fold_add_claim :=
  match goal with
  | |- context [for_each (claim_data _) _ ?body _] =>
      change body with add_claim
  end.

(** The method, key by key: the entry of [k] in the returned map is the
    rounding of what the loop over the claims leaves for [k]. *)
Lemma build_map_ok (round2 : float -> float) (self self' : SimpleDataTool)
    (m : dict (option Z) pyval) :
  build_map_of_agents_to_total_claim_cost round2 self = (Ok m, self') ->
  forall k, exists r,
    key_run (dict_get agent_key_eqb (init_map (agent_data self) []) k)
            (costs_of_key k (claim_data self)) = Ok r
    /\ dict_get agent_key_eqb m k = option_map (rounded round2) r.
Proof.
  unfold build_map_of_agents_to_total_claim_cost.
  unfold bind at 1, self_agent_data. unfold bind at 1.
  rewrite init_loop. unfold bind at 1, self_claim_data. unfold bind at 1.
  fold_add_claim.
  match goal with
  | |- context [@for_each ?X ?A ?cs ?d0 add_claim ?s] =>
      destruct (@for_each X A cs d0 add_claim s) as [[d1|e] s1] eqn:Hloop
  end; [|discriminate].
  destruct (claims_loop_ok _ _ _ _ _ Hloop) as [Hnd Hkeys].
  assert (Hnd1 : NoDup (dict_keys d1)).
  { apply Hnd, NoDup_init_map. constructor. }
  destruct (round_loop round2 s1 d1 d1 Hnd1) as (d' & Hround & Hget).
  unfold dict_items. intro H.
  pose proof (eq_trans (eq_sym Hround) H) as H'. injection H' as <- _.
  intro k. exists (dict_get agent_key_eqb d1 k). split; [apply Hkeys|].
  rewrite Hget.
  destruct (dict_get agent_key_eqb d1 k) as [[| |]|]; reflexivity.
Qed.

Lemma build_map_total (round2 : float -> float) (self : SimpleDataTool) :
  (forall k, exists r,
      key_run (dict_get agent_key_eqb (init_map (agent_data self) []) k)
              (costs_of_key k (claim_data self)) = Ok r) ->
  exists m,
    build_map_of_agents_to_total_claim_cost round2 self = (Ok m, self).
Proof.
  intro Hruns.
  unfold build_map_of_agents_to_total_claim_cost.
  unfold bind at 1, self_agent_data. unfold bind at 1.
  rewrite init_loop. unfold bind at 1, self_claim_data. unfold bind at 1.
  fold_add_claim.
  destruct (claims_loop_total self _ _ Hruns) as [d1 Hloop].
  match goal with
  | |- context [@for_each ?X ?A ?cs ?d0 add_claim ?s] =>
      replace (@for_each X A cs d0 add_claim s)
        with (@Ok (dict (option Z) pyval) d1, self)
        by (symmetry; exact Hloop)
  end.
  destruct (claims_loop_ok _ _ _ _ _ Hloop) as [Hnd _].
  assert (Hnd1 : NoDup (dict_keys d1)).
  { apply Hnd, NoDup_init_map. constructor. }
  destruct (round_loop round2 self d1 d1 Hnd1) as (d' & Hround & _).
  exists d'. exact Hround.
Qed.

(** *** One key *)

Lemma key_run_none_stays (costs : list pyval) :
  forall r, key_run (Some PyNone) costs = Ok r -> r = Some PyNone.
Proof.
  induction costs as [|c costs IH]; intros r; simpl.
  - congruence.
  - destruct c; simpl; try discriminate. apply IH.
Qed.

Lemma key_step_null (st : option pyval) : key_step st PyNone = Ok PyNone.
Proof. now destruct st. Qed.

Lemma key_run_null (costs : list pyval) :
  forall st r,
    In PyNone costs -> key_run st costs = Ok r -> r = Some PyNone.
Proof.
  induction costs as [|c costs IH]; intros st r Hin; [destruct Hin|].
  simpl. destruct Hin as [->|Hin].
  - rewrite key_step_null. apply key_run_none_stays.
  - destruct (key_step st c); [now apply IH | discriminate].
Qed.

Lemma key_run_unknown (costs : list pyval) (r : option pyval) :
  costs <> [] -> key_run None costs = Ok r -> r = Some PyNone.
Proof.
  destruct costs as [|c costs]; [congruence|]. intros _. simpl.
  apply key_run_none_stays.
Qed.

Lemma key_run_some (costs : list pyval) :
  forall v r, key_run (Some v) costs = Ok r -> exists v', r = Some v'.
Proof.
  induction costs as [|c costs IH]; intros v r; simpl.
  - intro H. injection H as <-. now exists v.
  - destruct (if is_not_none c then py_add v c else Ok PyNone);
      [apply IH | discriminate].
Qed.

Lemma key_run_floats (xs : list float) :
  forall acc,
    key_run (Some (PyFloat acc)) (map PyFloat xs)
    = Ok (Some (PyFloat (fold_left PrimFloat.add xs acc))).
Proof.
  induction xs as [|x xs IH]; intro acc; simpl; [reflexivity | apply IH].
Qed.

Lemma key_run_from_zero (x : float) (xs : list float) :
  key_run (Some (PyInt 0)) (map PyFloat (x :: xs))
  = Ok (Some (PyFloat (float_sum (x :: xs)))).
Proof.
  unfold float_sum.
  change (key_run (Some (PyInt 0)) (map PyFloat (x :: xs)))
    with (key_run (Some (PyFloat (0 + x))) (map PyFloat xs)).
  cbn [fold_left]. apply key_run_floats.
Qed.

Lemma costs_of_key_floats (k : option Z) (claims : list claim) :
  Forall has_cost (claims_of_key k claims) ->
  costs_of_key k claims
  = map PyFloat (map cost_or_zero (claims_of_key k claims)).
Proof.
  unfold costs_of_key. generalize (claims_of_key k claims) as l.
  induction l as [|c l IH]; intro Hall; simpl; [reflexivity|].
  inversion Hall as [|? ? Hc Hrest]; subst. destruct Hc as [x Hx].
  rewrite (IH Hrest). unfold cost_or_zero. now rewrite Hx.
Qed.

Lemma claim_in_claims_of_key (c : claim) (claims : list claim) :
  In c claims -> In c (claims_of_key (claim_key c) claims).
Proof.
  intro Hin. apply filter_In. split; [exact Hin|].
  now apply agent_key_eqb_eq.
Qed.

Lemma claims_of_key_at_most_one (k : option Z) (claims : list claim) :
  NoDup (map claim_key claims) ->
  claims_of_key k claims = [] \/ exists c, claims_of_key k claims = [c].
Proof.
  unfold claims_of_key.
  induction claims as [|c claims IH]; intro Hnd; simpl; [now left|].
  inversion Hnd as [|? ? Hnotin Hnd']; subst.
  destruct (agent_key_eqb (claim_key c) k) eqn:E; [|now apply IH].
  right. exists c. f_equal.
  apply agent_key_eqb_eq in E. subst k.
  destruct (filter (fun c0 => agent_key_eqb (claim_key c0) (claim_key c)) claims)
    as [|c' rest] eqn:F; [reflexivity|].
  exfalso. apply Hnotin.
  assert (Hc' : In c' (filter (fun c0 => agent_key_eqb (claim_key c0) (claim_key c))
                              claims)) by (rewrite F; now left).
  apply filter_In in Hc' as [Hin Heq]. apply agent_key_eqb_eq in Heq.
  rewrite <- Heq. now apply in_map.
Qed.

Lemma float_of_int_0 : float_of_int 0 = Ok 0%float.
Proof. reflexivity. Qed.

Lemma py_add_zero_float (x : float) :
  py_add (PyInt 0) (PyFloat x) = Ok (PyFloat (0 + x)).
Proof. unfold py_add. now rewrite float_of_int_0. Qed.

(** Claims that all carry a cost and name a known agent: every key runs to
    its end. *)
Lemma clean_claims_run (agents : list agent) (claims : list claim)
    (k : option Z) :
  Forall (fun c => has_cost c /\ known_agent agents c) claims ->
  exists r,
    key_run (dict_get agent_key_eqb (init_map agents []) k)
            (costs_of_key k claims) = Ok r.
Proof.
  intro Hall. rewrite Forall_forall in Hall.
  assert (Hcosts : Forall has_cost (claims_of_key k claims)).
  { apply Forall_forall. intros c Hc. apply filter_In in Hc as [Hc _].
    now apply Hall. }
  rewrite (costs_of_key_floats _ _ Hcosts).
  destruct (claims_of_key k claims) as [|c l] eqn:F; [now eexists|].
  assert (Hc : In c (claims_of_key k claims)) by (rewrite F; now left).
  apply filter_In in Hc as [Hc Hk]. apply agent_key_eqb_eq in Hk.
  destruct (Hall c Hc) as [_ (a & Ha & Hin)].
  rewrite <- Hk, Ha, (init_known _ _ Hin).
  eexists. apply key_run_from_zero.
Qed.

(** Claims of pairwise distinct keys: every key runs to its end. *)
Lemma distinct_keys_run (agents : list agent) (claims : list claim)
    (k : option Z) :
  NoDup (map claim_key claims) ->
  exists r,
    key_run (dict_get agent_key_eqb (init_map agents []) k)
            (costs_of_key k claims) = Ok r.
Proof.
  intro Hnd. unfold costs_of_key.
  destruct (claims_of_key_at_most_one k claims Hnd) as [->|[c ->]];
    [now eexists|].
  simpl. destruct (init_entry agents k) as [->| ->]; simpl; [now eexists|].
  destruct (estimate_cost c) as [| |x]; simpl; now eexists.
Qed.

Lemma fst_run {A} (m : M A) (self : SimpleDataTool) (a : A) :
  fst (m self) = Ok a -> exists self', m self = (Ok a, self').
Proof. destruct (m self) as [r s]. simpl. intros ->. now exists s. Qed.

(** C5: on claims that all carry a cost and name a known agent the map is
    returned; and in a returned map every id of the agent collection is a
    key, the id of an agent without claims maps to the int 0, and the id of
    an agent whose claims all carry a cost maps to the sum of those costs,
    rounded to two decimals. *)
Theorem agent_map_totals :
  forall (round2 : float -> float) (self : SimpleDataTool),
    (Forall (fun c => has_cost c /\ known_agent (agent_data self) c)
            (claim_data self) ->
     exists m,
       fst (build_map_of_agents_to_total_claim_cost round2 self) = Ok m)
    /\ forall m,
         fst (build_map_of_agents_to_total_claim_cost round2 self) = Ok m ->
         forall a, In a (agent_ids (agent_data self)) ->
           exists v,
             dict_get agent_key_eqb m (Some a) = Some v
             /\ (claims_of_agent a (claim_data self) = [] -> v = PyInt 0)
             /\ (claims_of_agent a (claim_data self) <> [] ->
                 Forall has_cost (claims_of_agent a (claim_data self)) ->
                 v = PyFloat
                       (round2
                          (float_sum
                             (map cost_or_zero
                                  (claims_of_agent a (claim_data self)))))).
Proof.
  intros round2 self. split.
  - intro Hall.
    destruct (build_map_total round2 self) as [m Hm].
    { intro k. now apply clean_claims_run. }
    exists m. now rewrite Hm.
  - intros m Hm a Ha. apply fst_run in Hm as [self' Hm].
    destruct (build_map_ok round2 self self' m Hm (Some a)) as (r & Hrun & Hget).
    rewrite (init_known _ _ Ha) in Hrun.
    destruct (key_run_some _ _ _ Hrun) as [v' ->].
    exists (rounded round2 v'). split; [exact Hget|].
    unfold claims_of_agent. split.
    + intro Hnone. unfold costs_of_key in Hrun. rewrite Hnone in Hrun.
      simpl in Hrun. now injection Hrun as <-.
    + intros Hsome Hcosts.
      rewrite (costs_of_key_floats _ _ Hcosts) in Hrun.
      destruct (claims_of_key (Some a) (claim_data self)) as [|c l];
        [congruence|].
      change (map PyFloat (map cost_or_zero (c :: l)))
        with (map PyFloat (cost_or_zero c :: map cost_or_zero l)) in Hrun.
      rewrite key_run_from_zero in Hrun. now injection Hrun as <-.
Qed.

Lemma agent_map_totals_witness :
  Forall (fun c => has_cost c /\ known_agent (agent_data clean_claims_tool) c)
         (claim_data clean_claims_tool)
  /\ exists m,
       fst (build_map_of_agents_to_total_claim_cost round_hundredths
              clean_claims_tool) = Ok m.
Proof.
  assert (H : Forall (fun c => has_cost c
                               /\ known_agent (agent_data clean_claims_tool) c)
                     (claim_data clean_claims_tool)).
  { repeat constructor; try (eexists; reflexivity);
      (exists 1; split; [reflexivity | now left]). }
  split; [exact H|].
  apply (proj1 (agent_map_totals round_hundredths clean_claims_tool) H).
Defined.

(** Agent 1 has the claims 100.005 and 50.00: the sum 150.005 is rounded to
    150.0, as Python rounds it.  Agents 2 and 3 have no claim. *)
Example agent_map_of_clean_claims :
  fst (build_map_of_agents_to_total_claim_cost round_hundredths
         clean_claims_tool)
  = Ok [ (Some 1, PyFloat 150%float); (Some 2, PyInt 0); (Some 3, PyInt 0) ].
Proof. reflexivity. Qed.

(** C6: when no two claims have the same key the map is returned; and in a
    returned map the key of a claim that names no known agent, and the key
    of a claim with a null cost, hold None. *)
Theorem agent_map_none_entries :
  forall (round2 : float -> float) (self : SimpleDataTool),
    (NoDup (map claim_key (claim_data self)) ->
     exists m,
       fst (build_map_of_agents_to_total_claim_cost round2 self) = Ok m)
    /\ forall m c,
         fst (build_map_of_agents_to_total_claim_cost round2 self) = Ok m ->
         In c (claim_data self) ->
         ~ known_agent (agent_data self) c \/ estimate_cost c = Null ->
         dict_get agent_key_eqb m (claim_key c) = Some PyNone.
Proof.
  intros round2 self. split.
  - intro Hnd.
    destruct (build_map_total round2 self) as [m Hm].
    { intro k. now apply distinct_keys_run. }
    exists m. now rewrite Hm.
  - intros m c Hm Hc Hbad. apply fst_run in Hm as [self' Hm].
    destruct (build_map_ok round2 self self' m Hm (claim_key c))
      as (r & Hrun & Hget).
    assert (Hcost : In (get_estimate_cost (estimate_cost c))
                       (costs_of_key (claim_key c) (claim_data self))).
    { unfold costs_of_key.
      apply (in_map (fun c => get_estimate_cost (estimate_cost c))).
      now apply claim_in_claims_of_key. }
    assert (Hr : r = Some PyNone).
    { destruct Hbad as [Hunknown|Hnull].
      - rewrite init_unknown in Hrun.
        + apply key_run_unknown in Hrun; [exact Hrun|].
          intro Hnil. rewrite Hnil in Hcost. destruct Hcost.
        + intros a Ha Hin. apply Hunknown. now exists a.
      - rewrite Hnull in Hcost. simpl in Hcost.
        now apply key_run_null in Hrun. }
    rewrite Hget, Hr. reflexivity.
Qed.

Lemma agent_map_none_entries_witness :
  NoDup (map claim_key (claim_data none_entries_tool))
  /\ exists m,
       fst (build_map_of_agents_to_total_claim_cost round_hundredths
              none_entries_tool) = Ok m.
Proof.
  assert (H : NoDup (map claim_key (claim_data none_entries_tool))).
  { repeat constructor; simpl; intuition discriminate. }
  split; [exact H|].
  apply (proj1 (agent_map_none_entries round_hundredths none_entries_tool) H).
Defined.

(** The unknown agent 7 and the missing agent get a key of their own with
    None; agent 1, whose claim has a null cost, has None too. *)
Example agent_map_with_none_entries :
  fst (build_map_of_agents_to_total_claim_cost round_hundredths
         none_entries_tool)
  = Ok [ (Some 1, PyNone); (Some 2, PyInt 0); (Some 7, PyNone);
         (None, PyNone) ].
Proof. reflexivity. Qed.

(** ** Open claims of an agent *)

Lemma open_claims_out_of_range (a : int_obj) (r : Z) (self : SimpleDataTool) :
  r < 1 \/ 10 < r ->
  get_num_of_open_claims_for_agent_and_severity a r self
  = (Ok (Some (-1)), self).
Proof.
  intro Hr. unfold get_num_of_open_claims_for_agent_and_severity.
  replace ((r <? 1) || (r >? 10)) with true; [reflexivity|].
  symmetry. apply orb_true_iff. rewrite Z.ltb_lt, Z.gtb_ltb, Z.ltb_lt. lia.
Qed.

Lemma for_each_cons {X A} (x : X) (xs : list X) (acc : A)
    (body : A -> X -> M A) (self : SimpleDataTool) :
  for_each (x :: xs) acc body self
  = match body acc x self with
    | (Ok acc', self') => for_each xs acc' body self'
    | (Raise e, self') => (Raise e, self')
    end.
Proof. reflexivity. Qed.

Lemma open_claims_loop (a : int_obj) (r : Z) (self : SimpleDataTool) :
  forall (claims : list claim) (n : Z),
    Forall has_agent_key claims ->
    for_each claims n (fun num_claims claim =>
      assigned <- lift (getitem (agent_assigned_id claim)) ;;
      if py_is assigned a
      then if (severity_rating claim >=? r)
              && negb (status claim =? "Closed")%string
           then ret (num_claims + 1)
           else ret num_claims
      else ret num_claims) self
    = (Ok (n + Z.of_nat (List.length (open_claims_of_object a r claims))),
       self).
Proof.
  match goal with
  | |- forall claims n, _ -> for_each claims n ?b self = _ => set (body := b)
  end.
  assert (Hbody : forall n c,
             has_agent_key c ->
             body n c self
             = (Ok (n + Z.of_nat (List.length (open_claims_of_object a r [c]))),
                self)).
  { intros n c Hc. subst body. cbv beta.
    unfold has_agent_key in Hc. unfold open_claims_of_object. cbn [filter].
    unfold bind, lift, getitem.
    destruct (agent_assigned_id c) as [| |x]; [contradiction| |];
      cbn [py_is andb List.length]; unfold ret.
    - now rewrite Z.add_0_r.
    - destruct (int_is x a); cbn [andb List.length];
        [|now rewrite Z.add_0_r].
      destruct ((severity_rating c >=? r)
                && negb (status c =? "Closed")%string);
        cbn [List.length]; [reflexivity | now rewrite Z.add_0_r]. }
  induction claims as [|c claims IH]; intros n Hall.
  - simpl. unfold ret. now rewrite Z.add_0_r.
  - inversion Hall as [|? ? Hc Hrest]; subst.
    rewrite for_each_cons, (Hbody n c Hc), (IH _ Hrest).
    apply f_equal2; [apply f_equal | reflexivity].
    change (c :: claims) with ([c] ++ claims).
    unfold open_claims_of_object. rewrite filter_app, length_app. lia.
Qed.

(** What the query counts: the claims whose agent id is the object given. *)
Lemma open_claims_count (a : int_obj) (r : Z) (self : SimpleDataTool) :
  1 <= r <= 10 ->
  Forall has_agent_key (claim_data self) ->
  get_num_of_open_claims_for_agent_and_severity a r self
  = (Ok (let n := Z.of_nat (List.length
                              (open_claims_of_object a r (claim_data self))) in
         if n =? 0 then None else Some n),
     self).
Proof.
  intros Hr Hall. unfold get_num_of_open_claims_for_agent_and_severity.
  replace ((r <? 1) || (r >? 10)) with false.
  2:{ symmetry. apply orb_false_iff. rewrite Z.ltb_ge, Z.gtb_ltb, Z.ltb_ge. lia. }
  unfold bind at 1, self_claim_data. unfold bind at 1.
  rewrite (open_claims_loop a r self _ 0 Hall). rewrite Z.add_0_l.
  cbv zeta.
  now destruct (Z.of_nat (List.length
                            (open_claims_of_object a r (claim_data self))) =? 0).
Qed.

(** For the ints CPython shares, from -5 to 256, identity is equality, and
    the query counts the open claims of the agent. *)
Lemma open_claims_of_small_int (a : int_obj) (r : Z) (claims : list claim) :
  is_small_int (ival a) = true ->
  open_claims_of_object a r claims = open_claims_of_agent (ival a) r claims.
Proof.
  intro Hsmall. unfold open_claims_of_object, open_claims_of_agent.
  apply filter_ext. intro c.
  destruct (agent_assigned_id c) as [| |x]; try reflexivity.
  rewrite (andb_comm (severity_rating c >=? r)), andb_assoc.
  do 2 f_equal. unfold int_is.
  destruct (ival x =? ival a) eqn:E; [|reflexivity].
  apply Z.eqb_eq in E. now rewrite E, Hsmall.
Qed.

(** C4: agent 1000 has one open claim of severity 5, yet asked with an equal
    int that is another object the query answers None: the loop compares
    the ids with [is]. *)
Theorem open_claims_query_compares_identity :
  fst (get_num_of_open_claims_for_agent_and_severity
         (IntObj 1002 1000) 1 agent_1000_tool) = Ok None
  /\ Z.of_nat (List.length (open_claims_of_agent 1000 1
                         (claim_data agent_1000_tool))) = 1.
Proof. split; reflexivity. Qed.

(** Asked with the object of the file itself the claim is counted, and so is
    a claim of agent 7, an int that CPython shares. *)
Example open_claims_of_same_object_or_small_int :
  fst (get_num_of_open_claims_for_agent_and_severity
         (IntObj 1001 1000) 1 agent_1000_tool) = Ok (Some 1)
  /\ fst (get_num_of_open_claims_for_agent_and_severity
            (IntObj 7 7) 1 dangling_agent_tool) = Ok (Some 2)
  /\ fst (get_num_of_open_claims_for_agent_and_severity
            (IntObj 1002 1000) 0 agent_1000_tool) = Ok (Some (-1))
  /\ fst (get_num_of_open_claims_for_agent_and_severity
            (IntObj 1002 1000) 11 agent_1000_tool) = Ok (Some (-1)).
Proof. repeat split. Qed.

(** ** Exceptions *)

(** C3: on two claims that name the same unknown agent, building the agent
    map raises TypeError (the second claim adds its cost to the None the
    first one stored); and with no disaster loaded the two state queries
    raise ValueError. *)
Theorem queries_raise_on_loaded_data :
  forall round2 : float -> float,
    fst (build_map_of_agents_to_total_claim_cost round2 dangling_agent_tool)
    = Raise TypeError
    /\ fst (get_state_with_most_disasters dangling_agent_tool)
       = Raise ValueError
    /\ fst (get_state_with_least_disasters dangling_agent_tool)
       = Raise ValueError.
Proof. intro round2. repeat split. Qed.

(** * Further properties of the queries *)

(** ** The counting queries *)

Lemma count_loop {X} (p : X -> bool) (self : SimpleDataTool) :
  forall (xs : list X) (n : Z),
    for_each xs n (fun count x => if p x then ret (count + 1) else ret count)
             self
    = (Ok (n + Z.of_nat (List.length (filter p xs))), self).
Proof.
  induction xs as [|x xs IH]; intro n.
  - simpl. unfold ret. now rewrite Z.add_0_r.
  - rewrite for_each_cons. cbn [filter].
    destruct (p x); unfold ret at 1; rewrite IH;
      (apply f_equal2; [apply f_equal | reflexivity]).
    + cbn [List.length]. lia.
    + reflexivity.
Qed.

Lemma filter_length_le {X} (p : X -> bool) (xs : list X) :
  (List.length (filter p xs) <= List.length xs)%nat.
Proof.
  induction xs as [|x xs IH]; simpl; [lia|]. destruct (p x); simpl; lia.
Qed.

Lemma filter_nil_iff {X} (p : X -> bool) (xs : list X) :
  filter p xs = [] <-> forall x, In x xs -> p x = false.
Proof.
  induction xs as [|x xs IH]; simpl; [tauto|].
  destruct (p x) eqn:E.
  - split; [discriminate|]. intro H. specialize (H x (or_introl eq_refl)).
    congruence.
  - rewrite IH. split.
    + intros H y [<-|Hy]; auto.
    + intros H y Hy. apply H. now right.
Qed.

Lemma get_num_closed_claims_counts (self : SimpleDataTool) :
  get_num_closed_claims self
  = (Ok (Z.of_nat (List.length (closed_claims (claim_data self)))), self).
Proof.
  unfold get_num_closed_claims, bind, self_claim_data.
  exact (count_loop is_closed self (claim_data self) 0).
Qed.

Lemma closed_claims_app (xs ys : list claim) :
  closed_claims (xs ++ ys) = closed_claims xs ++ closed_claims ys.
Proof. apply filter_app. Qed.

(** X1: when one closed claim of the data gets another status, the number
    of closed claims the query returns goes down by exactly one. *)
Theorem reopening_a_closed_claim_decreases_count :
  forall (agents : list agent) (handlers : list claim_handler)
         (disasters : list disaster) (pre post : list claim) (c : claim)
         (s : string),
    status c = "Closed"%string ->
    s <> "Closed"%string ->
    exists n,
      fst (get_num_closed_claims
             (Tool agents handlers (pre ++ c :: post) disasters)) = Ok n
      /\ fst (get_num_closed_claims
                (Tool agents handlers (pre ++ set_status c s :: post)
                      disasters)) = Ok (n - 1).
Proof.
  intros agents handlers disasters pre post c s Hc Hs.
  exists (Z.of_nat (List.length (closed_claims (pre ++ c :: post)))).
  rewrite !get_num_closed_claims_counts. cbn [fst claim_data]. split;
    [reflexivity|].
  f_equal. rewrite !closed_claims_app, !length_app.
  assert (Hclosed : closed_claims (c :: post) = c :: closed_claims post).
  { unfold closed_claims. cbn [filter]. unfold is_closed at 1.
    now rewrite Hc. }
  assert (Hopen : closed_claims (set_status c s :: post) = closed_claims post).
  { unfold closed_claims. cbn [filter]. unfold is_closed at 1.
    cbn [status set_status]. apply String.eqb_neq in Hs. now rewrite Hs. }
  rewrite Hclosed, Hopen. cbn [List.length]. lia.
Qed.

Lemma reopening_a_closed_claim_decreases_count_witness :
  status (Claim 2 1 2 (Val (IntObj 2 2)) (Val 20%float) 7 "Closed")
  = "Closed"%string
  /\ "Open"%string <> "Closed"%string
  /\ exists n,
       fst (get_num_closed_claims
              (Tool [] []
                    ([Claim 1 1 1 (Val (IntObj 1 1)) (Val 10%float) 5 "Open"]
                     ++ Claim 2 1 2 (Val (IntObj 2 2)) (Val 20%float) 7 "Closed"
                     :: [])
                    [])) = Ok n
       /\ fst (get_num_closed_claims
                 (Tool [] []
                       ([Claim 1 1 1 (Val (IntObj 1 1)) (Val 10%float) 5 "Open"]
                        ++ set_status
                             (Claim 2 1 2 (Val (IntObj 2 2)) (Val 20%float) 7
                                    "Closed") "Open"
                        :: [])
                       [])) = Ok (n - 1).
Proof.
  split; [reflexivity|]. split; [discriminate|].
  apply reopening_a_closed_claim_decreases_count;
    [reflexivity | discriminate].
Defined.

Lemma get_num_claims_for_claim_handler_id_counts (h : Z)
    (self : SimpleDataTool) :
  get_num_claims_for_claim_handler_id h self
  = (Ok (Z.of_nat (List.length (claims_of_handler h (claim_data self)))), self).
Proof.
  unfold get_num_claims_for_claim_handler_id, bind, self_claim_data.
  exact (count_loop (fun c => claim_handler_assigned_id c =? h) self
                    (claim_data self) 0).
Qed.

(** X2: the number of claims of a handler is the number of claims assigned
    to that id; it lies between 0 and the number of claims, and it is 0
    exactly when no claim is assigned to the handler (a handler id that does
    not exist is no error). *)
Theorem claims_for_handler_count :
  forall (self : SimpleDataTool) (h : Z),
    exists n,
      fst (get_num_claims_for_claim_handler_id h self) = Ok n
      /\ n = Z.of_nat (List.length (claims_of_handler h (claim_data self)))
      /\ 0 <= n <= Z.of_nat (List.length (claim_data self))
      /\ (n = 0 <-> forall c, In c (claim_data self) ->
                              claim_handler_assigned_id c <> h).
Proof.
  intros self h. eexists. rewrite get_num_claims_for_claim_handler_id_counts.
  split; [reflexivity|]. split; [reflexivity|].
  unfold claims_of_handler. split.
  - pose proof (filter_length_le (fun c => claim_handler_assigned_id c =? h)
                                 (claim_data self)). lia.
  - rewrite <- Nat2Z.inj_0, Nat2Z.inj_iff, length_zero_iff_nil, filter_nil_iff.
    split; intros H c Hc; specialize (H c Hc).
    + now apply Z.eqb_neq.
    + now apply Z.eqb_neq.
Qed.

(** X3: the number of disasters of a state is 0 exactly when no disaster of
    the data is in that state, and at least 1 otherwise; an unknown state is
    no error. *)
Theorem disasters_for_state_zero_iff_unknown :
  forall (self : SimpleDataTool) (state : string),
    exists n,
      fst (get_num_disasters_for_state state self) = Ok n
      /\ 0 <= n
      /\ (n = 0 <-> ~ In state (disaster_states (disaster_data self)))
      /\ (1 <= n <-> In state (disaster_states (disaster_data self))).
Proof.
  intros self state. eexists. rewrite get_num_disasters_for_state_counts.
  split; [reflexivity|]. unfold disasters_in_state.
  pose proof (occurrences_nonneg String.eqb state
                (disaster_states (disaster_data self))) as H0.
  pose proof (occurrences_In String.eqb String.eqb_eq state
                (disaster_states (disaster_data self))) as H1.
  split; [exact H0|]. split; [|now symmetry].
  rewrite H1. lia.
Qed.

Lemma string_ltb_irrefl (s : string) : String.ltb s s = false.
Proof.
  unfold String.ltb. pose proof (String.compare_antisym s s) as H.
  destruct (String.compare s s); [reflexivity | discriminate..].
Qed.

Lemma string_ltb_not_leb (x y : string) :
  String.ltb x y = negb (String.leb y x).
Proof.
  unfold String.ltb, String.leb. rewrite (String.compare_antisym x y).
  now destruct (String.compare y x).
Qed.

Lemma declared_after_end_counts (self : SimpleDataTool) :
  get_num_disasters_declared_after_end_date self
  = (Ok (Z.of_nat (List.length (filter declared_after_end
                                       (disaster_data self)))), self).
Proof.
  unfold get_num_disasters_declared_after_end_date, bind, self_disaster_data.
  exact (count_loop declared_after_end self (disaster_data self) 0).
Qed.

(** X4: the query counts the disasters whose declared date comes strictly
    after their end date in the order of strings; the count is 0 exactly
    when every disaster is declared on or before its end date, so a disaster
    declared on the day it ended is not counted. *)
Theorem disasters_declared_after_end_date_count :
  forall self : SimpleDataTool,
    exists n,
      fst (get_num_disasters_declared_after_end_date self) = Ok n
      /\ n = Z.of_nat (List.length (filter declared_after_end
                                           (disaster_data self)))
      /\ 0 <= n <= Z.of_nat (List.length (disaster_data self))
      /\ (n = 0 <-> forall d, In d (disaster_data self) ->
                              String.leb (declared_date d) (end_date d) = true)
      /\ (forall d, In d (disaster_data self) ->
                    declared_date d = end_date d ->
                    ~ In d (filter declared_after_end (disaster_data self))).
Proof.
  intro self. eexists. rewrite declared_after_end_counts.
  cbn [fst]. split; [reflexivity|]. split; [reflexivity|]. split; [|split].
  - pose proof (filter_length_le declared_after_end (disaster_data self)). lia.
  - rewrite <- Nat2Z.inj_0, Nat2Z.inj_iff, length_zero_iff_nil,
      filter_nil_iff.
    split; intros H d Hd; specialize (H d Hd); unfold declared_after_end in *;
      rewrite string_ltb_not_leb in *.
    + now apply negb_false_iff.
    + now apply negb_false_iff.
  - intros d _ Heq Hin. apply filter_In in Hin as [_ Hin].
    unfold declared_after_end in Hin. rewrite Heq, string_ltb_irrefl in Hin.
    discriminate.
Qed.

(** ** Costs that are missing or null *)

Lemma total_cost_loop_any (d : Z) (self : SimpleDataTool) :
  forall (claims : list claim) (acc : float),
    for_each claims acc (fun totalDisasterCost claim =>
      if disaster_id claim =? d
      then cost <- lift (getitem (estimate_cost claim)) ;;
           lift (float_iadd totalDisasterCost cost)
      else ret totalDisasterCost) self
    = (match first_missing_cost (claims_of_disaster d claims) with
       | Some e => Raise e
       | None => Ok (fold_left PrimFloat.add
                       (map cost_or_zero (claims_of_disaster d claims)) acc)
       end, self).
Proof.
  unfold claims_of_disaster.
  induction claims as [|c claims IH]; intro acc; [reflexivity|].
  rewrite for_each_cons. cbn [filter].
  destruct (disaster_id c =? d); [|unfold ret at 1; apply IH].
  cbn [first_missing_cost map fold_left]. unfold cost_or_zero at 2.
  unfold bind at 1, lift at 1, getitem.
  destruct (estimate_cost c) as [| |x]; try reflexivity.
  unfold lift, float_iadd. apply IH.
Qed.

Lemma total_claim_cost_result (d : Z) (self : SimpleDataTool) :
  get_total_claim_cost_for_disaster d self
  = (match first_missing_cost (claims_of_disaster d (claim_data self)) with
     | Some e => Raise e
     | None =>
         let total :=
           float_sum (map cost_or_zero
                          (claims_of_disaster d (claim_data self))) in
         Ok (if (total =? 0)%float then None else Some total)
     end, self).
Proof.
  unfold get_total_claim_cost_for_disaster.
  unfold bind at 1, self_claim_data. unfold bind at 1.
  rewrite total_cost_loop_any.
  destruct (first_missing_cost (claims_of_disaster d (claim_data self)));
    [reflexivity|].
  cbv zeta. unfold float_sum.
  now destruct (fold_left PrimFloat.add
                  (map cost_or_zero (claims_of_disaster d (claim_data self)))
                  0 =? 0)%float.
Qed.

(** X5: the total-cost query reads the cost of the claims of the disaster
    only.  The first of them, in file order, that has no float cost decides:
    a missing key raises KeyError, a null cost raises TypeError; when all
    have one, the accumulated float is returned, or None when it compares
    equal to zero. *)
Theorem total_claim_cost_on_any_data :
  forall (self : SimpleDataTool) (d : Z),
    fst (get_total_claim_cost_for_disaster d self)
    = match first_missing_cost (claims_of_disaster d (claim_data self)) with
      | Some e => Raise e
      | None =>
          let total :=
            float_sum (map cost_or_zero
                           (claims_of_disaster d (claim_data self))) in
          Ok (if (total =? 0)%float then None else Some total)
      end.
Proof. intros self d. now rewrite total_claim_cost_result. Qed.

(** X6: a float the total-cost query returns never compares equal to zero:
    zero is always replaced by None. *)
Theorem total_claim_cost_is_never_zero :
  forall (self : SimpleDataTool) (d : Z) (x : float),
    fst (get_total_claim_cost_for_disaster d self) = Ok (Some x) ->
    (x =? 0)%float = false.
Proof.
  intros self d x. rewrite total_claim_cost_result. cbn [fst].
  destruct (first_missing_cost (claims_of_disaster d (claim_data self)));
    [discriminate|].
  cbv zeta.
  destruct (float_sum (map cost_or_zero
                           (claims_of_disaster d (claim_data self))) =? 0)%float
    eqn:E; [discriminate|].
  intro H. injection H as <-. exact E.
Qed.

Lemma total_claim_cost_is_never_zero_witness :
  fst (get_total_claim_cost_for_disaster 1 two_claims_tool)
  = Ok (Some 150.005%float)
  /\ (150.005 =? 0)%float = false.
Proof.
  assert (H : fst (get_total_claim_cost_for_disaster 1 two_claims_tool)
              = Ok (Some 150.005%float)) by reflexivity.
  split; [exact H|].
  exact (total_claim_cost_is_never_zero two_claims_tool 1 150.005%float H).
Defined.

Lemma average_loop (h : Z) (self : SimpleDataTool) :
  forall (claims : list claim) (t : float) (n : Z),
    for_each claims (t, n)
      (fun '(total_claim_cost, num_claims) claim =>
        if claim_handler_assigned_id claim =? h
        then cost <- lift (getitem (estimate_cost claim)) ;;
             total <- lift (float_iadd total_claim_cost cost) ;;
             ret (total, num_claims + 1)
        else ret (total_claim_cost, num_claims)) self
    = (match first_missing_cost (claims_of_handler h claims) with
       | Some e => Raise e
       | None =>
           Ok (fold_left PrimFloat.add
                 (map cost_or_zero (claims_of_handler h claims)) t,
               n + Z.of_nat (List.length (claims_of_handler h claims)))
       end, self).
Proof.
  unfold claims_of_handler.
  induction claims as [|c claims IH]; intros t n.
  - simpl. unfold ret. now rewrite Z.add_0_r.
  - rewrite for_each_cons. cbn [filter].
    destruct (claim_handler_assigned_id c =? h);
      [|unfold ret at 1; apply IH].
    cbn [first_missing_cost map fold_left List.length].
    unfold cost_or_zero at 2.
    unfold bind at 1, lift at 1, getitem.
    destruct (estimate_cost c) as [| |x]; try reflexivity.
    unfold bind at 1, lift, float_iadd, ret at 1. rewrite IH.
    destruct (first_missing_cost
                (filter (fun c0 => claim_handler_assigned_id c0 =? h) claims));
      [reflexivity|].
    apply f_equal2; [|reflexivity]. do 2 f_equal. lia.
Qed.

Lemma average_result (round2 : float -> float) (h : Z)
    (self : SimpleDataTool) :
  get_average_claim_cost_for_claim_handler round2 h self
  = (match claims_of_handler h (claim_data self) with
     | [] => Ok None
     | _ :: _ =>
         match first_missing_cost (claims_of_handler h (claim_data self)) with
         | Some e => Raise e
         | None =>
             match float_of_int
                     (Z.of_nat (List.length
                                  (claims_of_handler h (claim_data self)))) with
             | Ok count =>
                 Ok (Some (round2
                             (float_sum
                                (map cost_or_zero
                                     (claims_of_handler h (claim_data self)))
                              / count)%float))
             | Raise e => Raise e
             end
         end
     end, self).
Proof.
  unfold get_average_claim_cost_for_claim_handler.
  unfold bind at 1. rewrite get_num_claims_for_claim_handler_id_counts.
  destruct (claims_of_handler h (claim_data self)) as [|c l] eqn:F;
    [reflexivity|].
  replace (Z.of_nat (List.length (c :: l)) =? 0) with false
    by (symmetry; apply Z.eqb_neq; cbn [List.length]; lia).
  unfold bind at 1, self_claim_data. unfold bind at 1.
  rewrite average_loop, F.
  destruct (first_missing_cost (c :: l)); [reflexivity|].
  rewrite Z.add_0_l. unfold bind, lift, float_div_int, float_sum.
  destruct (float_of_int (Z.of_nat (List.length (c :: l)))); [|reflexivity].
  replace (Z.of_nat (List.length (c :: l)) =? 0) with false
    by (symmetry; apply Z.eqb_neq; cbn [List.length]; lia).
  reflexivity.
Qed.

(** X7: the average-cost query on any data.  Without a claim of the handler
    it returns None.  Otherwise the first claim of the handler without a
    float cost raises KeyError (missing key) or TypeError (null); when all
    have one, the accumulated sum is divided by the number of the handler's
    claims as a float and rounded to two decimals; the division is never by
    zero. *)
Theorem average_claim_cost_on_any_data :
  forall (round2 : float -> float) (self : SimpleDataTool) (h : Z),
    let claims := claims_of_handler h (claim_data self) in
    fst (get_average_claim_cost_for_claim_handler round2 h self)
    = match claims with
      | [] => Ok None
      | _ :: _ =>
          match first_missing_cost claims with
          | Some e => Raise e
          | None =>
              match float_of_int (Z.of_nat (List.length claims)) with
              | Ok count =>
                  Ok (Some (round2 (float_sum (map cost_or_zero claims)
                                    / count)%float))
              | Raise e => Raise e
              end
          end
      end.
Proof. intros round2 self h claims. now rewrite average_result. Qed.

(** X8: the average-cost query returns None exactly when the count query
    returns 0 for the same handler. *)
Theorem average_is_none_iff_no_claims :
  forall (round2 : float -> float) (self : SimpleDataTool) (h : Z),
    fst (get_average_claim_cost_for_claim_handler round2 h self) = Ok None
    <-> fst (get_num_claims_for_claim_handler_id h self) = Ok 0.
Proof.
  intros round2 self h.
  rewrite average_result, get_num_claims_for_claim_handler_id_counts.
  cbn [fst].
  destruct (claims_of_handler h (claim_data self)) as [|c l].
  - split; reflexivity.
  - split.
    + destruct (first_missing_cost (c :: l)); [discriminate|].
      destruct (float_of_int (Z.of_nat (List.length (c :: l))));
        discriminate.
    + cbn [List.length]. intro H. injection H as H. lia.
Qed.

(** Handler 2 has the claims 20 and 30, handler 9 has none. *)
Example average_of_handler_2 :
  fst (get_average_claim_cost_for_claim_handler round_hundredths 2
         (Tool [] [] three_claims [])) = Ok (Some 25%float)
  /\ fst (get_average_claim_cost_for_claim_handler round_hundredths 9
            (Tool [] [] three_claims [])) = Ok None.
Proof. split; reflexivity. Qed.

(** ** The state queries and the order of the records *)

Lemma occurrences_perm {K} (key_eqb : K -> K -> bool) (k : K)
    (xs ys : list K) :
  Permutation xs ys -> occurrences key_eqb k xs = occurrences key_eqb k ys.
Proof.
  induction 1 as [|x xs ys _ IH|x y xs|xs ys zs _ IH1 _ IH2]; simpl.
  - reflexivity.
  - now rewrite IH.
  - lia.
  - congruence.
Qed.

Lemma disasters_in_state_perm (state : string) (ds ds' : list disaster) :
  Permutation ds ds' ->
  disasters_in_state state ds = disasters_in_state state ds'.
Proof.
  intro H. unfold disasters_in_state, disaster_states.
  apply occurrences_perm. now apply Permutation_map.
Qed.

(** X9: the two state queries do not depend on the order of the disaster
    records: on two instances whose disaster collections are permutations of
    each other they give the same result (the same state, or ValueError for
    both when empty). *)
Theorem state_queries_ignore_record_order :
  forall self1 self2 : SimpleDataTool,
    Permutation (disaster_data self1) (disaster_data self2) ->
    fst (get_state_with_most_disasters self1)
    = fst (get_state_with_most_disasters self2)
    /\ fst (get_state_with_least_disasters self1)
       = fst (get_state_with_least_disasters self2).
Proof.
  intros self1 self2 Hperm.
  destruct (disaster_data self1) as [|d1 ds1] eqn:E1.
  - apply Permutation_nil in Hperm.
    unfold get_state_with_most_disasters, get_state_with_least_disasters,
      bind, self_disaster_data.
    rewrite E1, Hperm. split; reflexivity.
  - assert (Hne1 : disaster_data self1 <> []) by (rewrite E1; discriminate).
    assert (Hne2 : disaster_data self2 <> []).
    { intro H. rewrite H in Hperm. apply Permutation_sym, Permutation_nil in Hperm.
      discriminate. }
    rewrite <- E1 in Hperm.
    assert (Hcount : forall t, disasters_in_state t (disaster_data self1)
                               = disasters_in_state t (disaster_data self2)).
    { intro t. now apply disasters_in_state_perm. }
    assert (Hin : forall t, In t (disaster_states (disaster_data self1))
                            <-> In t (disaster_states (disaster_data self2))).
    { intro t. unfold disaster_states. split; apply Permutation_in.
      - now apply Permutation_map.
      - now apply Permutation_map, Permutation_sym. }
    split.
    + destruct (most_disasters_result self1 Hne1) as (s1 & -> & _ & Hmax1 & Htie1).
      destruct (most_disasters_result self2 Hne2) as (s2 & -> & _ & Hmax2 & Htie2).
      cbn [fst]. f_equal.
      assert (Heq : disasters_in_state s1 (disaster_data self1)
                    = disasters_in_state s2 (disaster_data self1)).
      { specialize (Hmax1 s2). specialize (Hmax2 s1).
        rewrite <- !Hcount in Hmax2. lia. }
      apply String.leb_antisym.
      * apply Htie1. now symmetry.
      * apply Htie2. rewrite <- !Hcount. exact Heq.
    + destruct (least_disasters_result self1 Hne1)
        as (s1 & -> & Hs1 & Hmin1 & Htie1).
      destruct (least_disasters_result self2 Hne2)
        as (s2 & -> & Hs2 & Hmin2 & Htie2).
      cbn [fst]. f_equal.
      assert (Heq : disasters_in_state s1 (disaster_data self1)
                    = disasters_in_state s2 (disaster_data self1)).
      { specialize (Hmin1 s2 (proj2 (Hin s2) Hs2)).
        specialize (Hmin2 s1 (proj1 (Hin s1) Hs1)).
        rewrite <- !Hcount in Hmin2. lia. }
      apply String.leb_antisym.
      * apply Htie1. now symmetry.
      * apply Htie2. rewrite <- !Hcount. exact Heq.
Qed.

Lemma state_queries_ignore_record_order_witness :
  Permutation (disaster_data tie_tool)
              (disaster_data (Tool [] [] [] (rev (disaster_data tie_tool))))
  /\ fst (get_state_with_most_disasters tie_tool)
     = fst (get_state_with_most_disasters
              (Tool [] [] [] (rev (disaster_data tie_tool))))
  /\ fst (get_state_with_least_disasters tie_tool)
     = fst (get_state_with_least_disasters
              (Tool [] [] [] (rev (disaster_data tie_tool)))).
Proof.
  assert (H : Permutation (disaster_data tie_tool)
                (disaster_data (Tool [] [] [] (rev (disaster_data tie_tool))))).
  { apply Permutation_rev. }
  split; [exact H|].
  exact (state_queries_ignore_record_order tie_tool _ H).
Defined.

(** X10: the state queries agree with the count query.  With some disaster
    loaded, the count of the state with the most disasters is the greatest
    count any state has, the count of the state with the fewest is the
    smallest count a state of the data has, and both are at least 1. *)
Theorem state_queries_agree_with_count_query :
  forall self : SimpleDataTool,
    disaster_data self <> [] ->
    exists most least n_most n_least,
      fst (get_state_with_most_disasters self) = Ok most
      /\ fst (get_state_with_least_disasters self) = Ok least
      /\ fst (get_num_disasters_for_state most self) = Ok n_most
      /\ fst (get_num_disasters_for_state least self) = Ok n_least
      /\ 1 <= n_least <= n_most
      /\ forall t n,
           fst (get_num_disasters_for_state t self) = Ok n ->
           n <= n_most /\ (1 <= n -> n_least <= n).
Proof.
  intros self Hne.
  destruct (most_disasters_result self Hne) as (s1 & Hrun1 & Hs1 & Hmax & _).
  destruct (least_disasters_result self Hne) as (s2 & Hrun2 & Hs2 & Hmin & _).
  exists s1, s2, (disasters_in_state s1 (disaster_data self)),
    (disasters_in_state s2 (disaster_data self)).
  rewrite Hrun1, Hrun2, !get_num_disasters_for_state_counts. cbn [fst].
  repeat (split; [reflexivity|]).
  pose proof (proj1 (occurrences_In String.eqb String.eqb_eq s2 _) Hs2) as H2.
  fold (disasters_in_state s2 (disaster_data self)) in H2.
  split; [split; [exact H2 | apply Hmax]|].
  intros t n H. rewrite get_num_disasters_for_state_counts in H.
  cbn [fst] in H. injection H as <-. split; [apply Hmax|].
  intro Ht. apply Hmin.
  now apply (occurrences_In String.eqb String.eqb_eq).
Qed.

Lemma state_queries_agree_with_count_query_witness :
  disaster_data tie_tool <> []
  /\ exists most least n_most n_least,
       fst (get_state_with_most_disasters tie_tool) = Ok most
       /\ fst (get_state_with_least_disasters tie_tool) = Ok least
       /\ fst (get_num_disasters_for_state most tie_tool) = Ok n_most
       /\ fst (get_num_disasters_for_state least tie_tool) = Ok n_least
       /\ 1 <= n_least <= n_most
       /\ forall t n,
            fst (get_num_disasters_for_state t tie_tool) = Ok n ->
            n <= n_most /\ (1 <= n -> n_least <= n).
Proof.
  split; [discriminate|].
  apply state_queries_agree_with_count_query. discriminate.
Defined.

(** ** The language query and the agents it reads *)

Lemma has_language_dec (agents : list agent) :
  Forall has_language agents \/ Exists lacks_language agents.
Proof.
  induction agents as [|a agents [IH|IH]].
  - left. constructor.
  - destruct (secondary_language a) eqn:E.
    + right. now left.
    + left. constructor; [unfold has_language; congruence | exact IH].
    + left. constructor; [unfold has_language; congruence | exact IH].
  - right. now right.
Qed.

Lemma count_languages_loop_raise (state : string) (self : SimpleDataTool) :
  forall (agents : list agent) (d : dict (option string) Z),
    Exists lacks_language (agents_of_state state agents) ->
    for_each agents d (fun language_count agent =>
      if (agent_state agent =? state)%string
      then lang <- lift (getitem (secondary_language agent)) ;;
           if dict_contains lang_eqb language_count lang
           then n <- lift (dict_getitem lang_eqb language_count lang) ;;
                ret (dict_set lang_eqb language_count lang (n + 1))
           else ret (dict_set lang_eqb language_count lang 1)
      else ret language_count) self
    = (Raise KeyError, self).
Proof.
  unfold agents_of_state.
  induction agents as [|a agents IH]; intros d Hex; [inversion Hex|].
  rewrite for_each_cons. cbn [filter] in Hex.
  destruct (agent_state a =? state)%string; [|unfold ret at 1; now apply IH].
  unfold bind at 1, lift at 1, getitem.
  destruct (secondary_language a) as [| |s] eqn:E; [reflexivity| |];
    (inversion Hex as [? ? Ha|? ? Hrest]; subst;
     [unfold lacks_language in Ha; congruence|]);
    unfold dict_contains, dict_getitem, bind, lift, ret;
    match goal with
    | |- context [dict_get lang_eqb d ?k] => destruct (dict_get lang_eqb d k)
    end; now apply IH.
Qed.

Lemma language_query_returns (state : string) (self : SimpleDataTool) :
  Forall has_language (agents_of_state state (agent_data self)) ->
  exists l, get_most_spoken_agent_language_by_state state self = (Ok l, self).
Proof.
  intro Hall.
  destruct (agents_of_state state (agent_data self)) as [|a rest] eqn:E.
  - exists (Some EmptyString).
    unfold get_most_spoken_agent_language_by_state.
    unfold bind at 1, self_agent_data. unfold bind at 1.
    rewrite (count_languages_loop state self); [|now rewrite E].
    unfold languages_of_state. now rewrite E.
  - destruct (most_spoken_language_result state self) as (l & _ & _ & H & _).
    + now rewrite E.
    + rewrite E. discriminate.
    + now exists l.
Qed.

(** X11: the language query raises nothing but KeyError, and raises it
    exactly when some agent of the state asked for has no
    [secondary_language] key; agents of other states may lack it. *)
Theorem language_query_raises_iff_key_missing :
  forall (self : SimpleDataTool) (state : string) (e : exn),
    fst (get_most_spoken_agent_language_by_state state self) = Raise e
    <-> e = KeyError
        /\ Exists lacks_language (agents_of_state state (agent_data self)).
Proof.
  intros self state e.
  destruct (has_language_dec (agents_of_state state (agent_data self)))
    as [Hall|Hex].
  - destruct (language_query_returns state self Hall) as [l Hl].
    rewrite Hl. cbn [fst]. split; [discriminate|].
    intros [_ Hex]. exfalso.
    apply Exists_exists in Hex as (a & Ha & Hlack).
    rewrite Forall_forall in Hall. now apply (Hall a Ha).
  - unfold get_most_spoken_agent_language_by_state.
    unfold bind at 1, self_agent_data. unfold bind at 1.
    rewrite (count_languages_loop_raise state self _ _ Hex). cbn [fst].
    split; [intro H; injection H as <-; auto | intros [-> _]; reflexivity].
Qed.

Lemma agents_of_state_idem (state : string) (agents : list agent) :
  agents_of_state state (agents_of_state state agents)
  = agents_of_state state agents.
Proof.
  unfold agents_of_state. induction agents as [|a agents IH]; simpl;
    [reflexivity|].
  destruct (agent_state a =? state)%string eqn:E; simpl;
    [rewrite E; now f_equal | exact IH].
Qed.

Lemma language_query_tail (state : string) (self : SimpleDataTool) :
  Forall has_language (agents_of_state state (agent_data self)) ->
  get_most_spoken_agent_language_by_state state self
  = (pick_language
       (tally lang_eqb (languages_of_state state (agent_data self)) []), self).
Proof.
  intro Hall. unfold get_most_spoken_agent_language_by_state.
  unfold bind at 1, self_agent_data. unfold bind at 1.
  rewrite (count_languages_loop state self _ _ Hall).
  unfold pick_language.
  destruct (tally lang_eqb (languages_of_state state (agent_data self)) [])
    as [|entry d]; [reflexivity|].
  unfold bind, lift.
  now destruct (py_max (dict_values (entry :: d))).
Qed.

Lemma language_query_key_error (state : string) (self : SimpleDataTool) :
  Exists lacks_language (agents_of_state state (agent_data self)) ->
  get_most_spoken_agent_language_by_state state self = (Raise KeyError, self).
Proof.
  intro Hex. unfold get_most_spoken_agent_language_by_state.
  unfold bind at 1, self_agent_data. unfold bind at 1.
  now rewrite (count_languages_loop_raise state self _ _ Hex).
Qed.

(** X12: the language query reads the agents of the state asked for only:
    dropping all other agents from the collection changes nothing in its
    result, value or exception. *)
Theorem language_query_ignores_other_states :
  forall (agents : list agent) (handlers : list claim_handler)
         (claims : list claim) (disasters : list disaster) (state : string),
    fst (get_most_spoken_agent_language_by_state state
           (Tool agents handlers claims disasters))
    = fst (get_most_spoken_agent_language_by_state state
             (Tool (agents_of_state state agents) handlers claims disasters)).
Proof.
  intros agents handlers claims disasters state.
  destruct (has_language_dec (agents_of_state state agents)) as [Hall|Hex].
  - rewrite !language_query_tail; cbn [agent_data];
      [|now rewrite agents_of_state_idem | exact Hall].
    unfold languages_of_state. now rewrite agents_of_state_idem.
  - rewrite !language_query_key_error; cbn [agent_data];
      [reflexivity | now rewrite agents_of_state_idem | exact Hex].
Qed.

(** ** The open-claims query: sentinels, missing keys, severity *)

Lemma has_agent_key_dec (claims : list claim) :
  Forall has_agent_key claims \/ Exists lacks_agent_key claims.
Proof.
  induction claims as [|c claims [IH|IH]].
  - left. constructor.
  - destruct (agent_assigned_id c) eqn:E.
    + right. now left.
    + left. constructor; [unfold has_agent_key; congruence | exact IH].
    + left. constructor; [unfold has_agent_key; congruence | exact IH].
  - right. now right.
Qed.

Lemma open_claims_loop_raise (a : int_obj) (r : Z) (self : SimpleDataTool) :
  forall (claims : list claim) (n : Z),
    Exists lacks_agent_key claims ->
    for_each claims n (fun num_claims claim =>
      assigned <- lift (getitem (agent_assigned_id claim)) ;;
      if py_is assigned a
      then if (severity_rating claim >=? r)
              && negb (status claim =? "Closed")%string
           then ret (num_claims + 1)
           else ret num_claims
      else ret num_claims) self
    = (Raise KeyError, self).
Proof.
  induction claims as [|c claims IH]; intros n Hex; [inversion Hex|].
  rewrite for_each_cons. unfold bind at 1, lift at 1, getitem.
  destruct (agent_assigned_id c) as [| |x] eqn:E; [reflexivity| |];
    (inversion Hex as [? ? Hc|? ? Hrest]; subst;
     [unfold lacks_agent_key in Hc; congruence|]);
    cbn [py_is].
  - unfold ret at 1. now apply IH.
  - destruct (int_is x a);
      [destruct ((severity_rating c >=? r)
                 && negb (status c =? "Closed")%string)|];
      unfold ret at 1; now apply IH.
Qed.

Lemma open_claims_key_error (a : int_obj) (r : Z) (self : SimpleDataTool) :
  1 <= r <= 10 ->
  Exists lacks_agent_key (claim_data self) ->
  get_num_of_open_claims_for_agent_and_severity a r self
  = (Raise KeyError, self).
Proof.
  intros Hr Hex. unfold get_num_of_open_claims_for_agent_and_severity.
  replace ((r <? 1) || (r >? 10)) with false.
  2:{ symmetry. apply orb_false_iff. rewrite Z.ltb_ge, Z.gtb_ltb, Z.ltb_ge. lia. }
  unfold bind at 1, self_claim_data. unfold bind at 1.
  now rewrite (open_claims_loop_raise a r self _ 0 Hex).
Qed.

(** X13: the open-claims query never returns 0: a number it returns is the
    out-of-range sentinel -1 or a count of at least 1; a count of zero is
    always replaced by None. *)
Theorem open_claims_query_never_returns_zero :
  forall (self : SimpleDataTool) (a : int_obj) (r n : Z),
    fst (get_num_of_open_claims_for_agent_and_severity a r self)
    = Ok (Some n) ->
    n = -1 \/ 1 <= n.
Proof.
  intros self a r n.
  destruct (Z_lt_le_dec r 1) as [Hlow|Hlow];
    [rewrite open_claims_out_of_range by lia; cbn [fst];
     intro H; injection H as <-; now left|].
  destruct (Z_lt_le_dec 10 r) as [Hhigh|Hhigh];
    [rewrite open_claims_out_of_range by lia; cbn [fst];
     intro H; injection H as <-; now left|].
  destruct (has_agent_key_dec (claim_data self)) as [Hall|Hex].
  - rewrite open_claims_count by (lia || assumption). cbn [fst]. cbv zeta.
    destruct (Z.of_nat (List.length
                          (open_claims_of_object a r (claim_data self))) =? 0)
      eqn:E; [discriminate|].
    intro H. injection H as <-. apply Z.eqb_neq in E. right. lia.
  - rewrite open_claims_key_error by (lia || assumption). discriminate.
Qed.

Lemma open_claims_query_never_returns_zero_witness :
  fst (get_num_of_open_claims_for_agent_and_severity
         (IntObj 7 7) 1 dangling_agent_tool) = Ok (Some 2)
  /\ (2 = -1 \/ 1 <= 2).
Proof.
  assert (H : fst (get_num_of_open_claims_for_agent_and_severity
                     (IntObj 7 7) 1 dangling_agent_tool) = Ok (Some 2))
    by reflexivity.
  split; [exact H|].
  exact (open_claims_query_never_returns_zero dangling_agent_tool
           (IntObj 7 7) 1 2 H).
Defined.

(** X14: the open-claims query raises nothing but KeyError, and raises it
    exactly when the rating is within 1 to 10 and some claim of the data,
    of whatever agent, has no [agent_assigned_id] key; with a rating out of
    range the claims are not read. *)
Theorem open_claims_query_raises_iff_key_missing :
  forall (self : SimpleDataTool) (a : int_obj) (r : Z) (e : exn),
    fst (get_num_of_open_claims_for_agent_and_severity a r self) = Raise e
    <-> e = KeyError /\ 1 <= r <= 10
        /\ Exists lacks_agent_key (claim_data self).
Proof.
  intros self a r e.
  destruct (Z_lt_le_dec r 1) as [Hlow|Hlow];
    [rewrite open_claims_out_of_range by lia; cbn [fst];
     split; [discriminate | lia]|].
  destruct (Z_lt_le_dec 10 r) as [Hhigh|Hhigh];
    [rewrite open_claims_out_of_range by lia; cbn [fst];
     split; [discriminate | lia]|].
  destruct (has_agent_key_dec (claim_data self)) as [Hall|Hex].
  - rewrite open_claims_count by (lia || assumption). cbn [fst].
    split; [discriminate|]. intros (_ & _ & Hex). exfalso.
    apply Exists_exists in Hex as (c & Hc & Hlack).
    rewrite Forall_forall in Hall. now apply (Hall c Hc).
  - rewrite open_claims_key_error by (lia || assumption). cbn [fst].
    split; [intro H; injection H as <-; repeat split; (lia || assumption)
           | intros (-> & _); reflexivity].
Qed.

(** X15: for an agent id from -5 to 256, a rating from 1 to 10 and claims
    that all have the [agent_assigned_id] key, the query returns the number
    of claims assigned to that id that are not closed and of at least that
    severity, or None when there is none. *)
Theorem open_claims_query_of_shared_int :
  forall (self : SimpleDataTool) (a : int_obj) (r : Z),
    is_small_int (ival a) = true ->
    1 <= r <= 10 ->
    Forall has_agent_key (claim_data self) ->
    let n := Z.of_nat (List.length
                         (open_claims_of_agent (ival a) r (claim_data self))) in
    fst (get_num_of_open_claims_for_agent_and_severity a r self)
    = Ok (if n =? 0 then None else Some n).
Proof.
  intros self a r Hsmall Hr Hall n.
  rewrite (open_claims_count a r self Hr Hall). cbn [fst]. cbv zeta.
  subst n. now rewrite (open_claims_of_small_int a r _ Hsmall).
Qed.

Lemma open_claims_query_of_shared_int_witness :
  is_small_int (ival (IntObj 7 7)) = true
  /\ 1 <= 1 <= 10
  /\ Forall has_agent_key (claim_data dangling_agent_tool)
  /\ fst (get_num_of_open_claims_for_agent_and_severity
            (IntObj 7 7) 1 dangling_agent_tool)
     = Ok (if Z.of_nat (List.length
                          (open_claims_of_agent 7 1
                             (claim_data dangling_agent_tool))) =? 0
           then None
           else Some (Z.of_nat (List.length
                                  (open_claims_of_agent 7 1
                                     (claim_data dangling_agent_tool))))).
Proof.
  assert (H1 : is_small_int (ival (IntObj 7 7)) = true) by reflexivity.
  assert (H2 : 1 <= 1 <= 10) by lia.
  assert (H3 : Forall has_agent_key (claim_data dangling_agent_tool))
    by (repeat constructor; discriminate).
  repeat (split; [assumption|]).
  exact (open_claims_query_of_shared_int dangling_agent_tool (IntObj 7 7) 1
           H1 H2 H3).
Defined.

Lemma filter_length_mono {X} (p q : X -> bool) (xs : list X) :
  (forall x, p x = true -> q x = true) ->
  (List.length (filter p xs) <= List.length (filter q xs))%nat.
Proof.
  intro H. induction xs as [|x xs IH]; simpl; [lia|].
  destruct (p x) eqn:E.
  - rewrite (H x E). simpl. lia.
  - destruct (q x); simpl; lia.
Qed.

(** X16: asking for a higher minimum severity never gives more claims: when
    the query returns a count for the rating [r'], it returns a count at
    least as large for every lower rating [r] within range. *)
Theorem open_claims_query_monotone_in_severity :
  forall (self : SimpleDataTool) (a : int_obj) (r r' n' : Z),
    1 <= r -> r <= r' -> r' <= 10 ->
    Forall has_agent_key (claim_data self) ->
    fst (get_num_of_open_claims_for_agent_and_severity a r' self)
    = Ok (Some n') ->
    exists n,
      fst (get_num_of_open_claims_for_agent_and_severity a r self)
      = Ok (Some n)
      /\ n' <= n.
Proof.
  intros self a r r' n' H1 H2 H3 Hall.
  rewrite !open_claims_count by (lia || assumption). cbn [fst]. cbv zeta.
  assert (Hle : (List.length (open_claims_of_object a r' (claim_data self))
                 <= List.length (open_claims_of_object a r (claim_data self)))%nat).
  { apply filter_length_mono. intros c Hc.
    destruct (agent_assigned_id c) as [| |x]; try discriminate.
    apply andb_true_iff in Hc as [Hx Hc].
    apply andb_true_iff in Hc as [Hsev Hopen].
    rewrite Hx, Hopen, andb_true_r. cbn [andb].
    apply Z.geb_le. apply Z.geb_le in Hsev. lia. }
  destruct (Z.of_nat (List.length
                        (open_claims_of_object a r' (claim_data self))) =? 0)
    eqn:E'; [discriminate|].
  intro H. injection H as <-. apply Z.eqb_neq in E'.
  destruct (Z.of_nat (List.length
                        (open_claims_of_object a r (claim_data self))) =? 0)
    eqn:E.
  - apply Z.eqb_eq in E. lia.
  - eexists. split; [reflexivity | lia].
Qed.

Lemma open_claims_query_monotone_in_severity_witness :
  1 <= 2 /\ 2 <= 6 /\ 6 <= 10
  /\ Forall has_agent_key three_claims
  /\ fst (get_num_of_open_claims_for_agent_and_severity
            (IntObj 2 2) 6 (Tool [] [] three_claims [])) = Ok (Some 1)
  /\ exists n,
       fst (get_num_of_open_claims_for_agent_and_severity
              (IntObj 2 2) 2 (Tool [] [] three_claims [])) = Ok (Some n)
       /\ 1 <= n.
Proof.
  assert (Hall : Forall has_agent_key
                   (claim_data (Tool [] [] three_claims [])))
    by (repeat constructor; discriminate).
  assert (H : fst (get_num_of_open_claims_for_agent_and_severity
                     (IntObj 2 2) 6 (Tool [] [] three_claims []))
              = Ok (Some 1)) by reflexivity.
  repeat (split; [first [lia | exact Hall | exact H]|]).
  apply (open_claims_query_monotone_in_severity
           (Tool [] [] three_claims []) (IntObj 2 2) 2 6 1);
    first [lia | exact Hall | exact H].
Defined.

(** ** When the agent map is returned *)

Lemma clean_not_none (v : pyval) : clean v -> v <> PyNone.
Proof. intros [->|[f ->]]; discriminate. Qed.

Lemma is_not_none_true (c : pyval) : is_not_none c = true <-> c <> PyNone.
Proof. destruct c; simpl; split; congruence. Qed.

Lemma key_step_clean (v c : pyval) :
  clean v -> cost_ok c ->
  exists v', key_step (Some v) c = Ok v'
             /\ (c = PyNone -> v' = PyNone)
             /\ (c <> PyNone -> clean v').
Proof.
  intros Hv [->|Hc].
  - exists PyNone. simpl. repeat split; congruence.
  - destruct Hv as [->|[g ->]]; destruct Hc as [->|[f ->]]; simpl;
      eexists; (split; [reflexivity|]); (split; [discriminate|]); intros _;
      unfold clean; eauto.
Qed.

Lemma key_step_poisoned (c : pyval) :
  key_step (Some PyNone) c
  = if is_not_none c then Raise TypeError else Ok PyNone.
Proof. now destruct c. Qed.

Lemma key_conflict_raises (pre : list pyval) (c : pyval) (post : list pyval) :
  is_not_none c = true ->
  forall st,
    good_state st ->
    Forall cost_ok pre ->
    st = Some PyNone \/ (st = None /\ pre <> []) \/ In PyNone pre ->
    key_run st (pre ++ c :: post) = Raise TypeError.
Proof.
  intro Hc. induction pre as [|x pre IH]; intros st Hgood Hok Hreason.
  - destruct Hreason as [->|[[_ H]|[]]]; [|congruence].
    cbn [app key_run]. rewrite key_step_poisoned, Hc. reflexivity.
  - inversion Hok as [|? ? Hx Hpre]; subst. cbn [app key_run].
    destruct Hgood as [->|[->|(v & -> & Hv)]].
    + cbn [key_step]. apply IH; auto. right. left. reflexivity.
    + rewrite key_step_poisoned. destruct (is_not_none x); [reflexivity|].
      apply IH; auto. right. left. reflexivity.
    + destruct (key_step_clean v x Hv Hx) as (v' & -> & Hnone & Hclean).
      destruct Hx as [->|Hx].
      * rewrite (Hnone eq_refl). apply IH; auto. right. left. reflexivity.
      * pose proof (clean_not_none _ Hx) as Hxn.
        apply IH; auto.
        -- right. right. eexists. split; [reflexivity | now apply Hclean].
        -- destruct Hreason as [H|[[H _]|[H|H]]]; try discriminate.
           ++ injection H as ->. now apply clean_not_none in Hv.
           ++ congruence.
           ++ now right; right.
Qed.

Lemma key_run_raises (costs : list pyval) :
  forall st e,
    good_state st ->
    Forall cost_ok costs ->
    key_run st costs = Raise e ->
    e = TypeError /\ key_conflict st costs.
Proof.
  induction costs as [|x xs IH]; intros st e Hgood Hok; [discriminate|].
  inversion Hok as [|? ? Hx Hxs]; subst. cbn [key_run].
  destruct Hgood as [->|[->|(v & -> & Hv)]].
  - cbn [key_step]. intro Hrun.
    destruct (IH (Some PyNone) e) as (He & pre & c & post & -> & Hc & _); auto.
    { right. now left. }
    split; [exact He|]. exists (x :: pre), c, post.
    repeat split; auto. right. left. split; [reflexivity | discriminate].
  - rewrite key_step_poisoned. destruct (is_not_none x) eqn:E.
    + intro H. injection H as <-. split; [reflexivity|].
      exists [], x, xs. repeat split; auto.
    + intro Hrun.
      destruct (IH (Some PyNone) e) as (He & pre & c & post & -> & Hc & _);
        auto.
      { right. now left. }
      split; [exact He|]. exists (x :: pre), c, post. repeat split; auto.
  - destruct (key_step_clean v x Hv Hx) as (v' & -> & Hnone & Hclean).
    intro Hrun.
    assert (Hgood' : good_state (Some v')).
    { destruct Hx as [->|Hx].
      - rewrite (Hnone eq_refl). right. now left.
      - right. right. exists v'. split; [reflexivity|].
        now apply Hclean, clean_not_none. }
    destruct (IH (Some v') e Hgood' Hxs Hrun)
      as (He & pre & c & post & -> & Hc & Hreason).
    split; [exact He|]. exists (x :: pre), c, post.
    split; [reflexivity | split; [exact Hc|]].
    right. right.
    destruct Hreason as [H|[[H _]|H]]; [|discriminate | now right].
    injection H as ->. left.
    destruct Hx as [->|Hx]; [reflexivity|].
    exfalso. apply clean_not_none in Hx.
    now apply (clean_not_none PyNone (Hclean Hx)).
Qed.


Lemma costs_of_key_ok (k : option Z) (claims : list claim) :
  Forall cost_ok (costs_of_key k claims).
Proof.
  unfold costs_of_key. apply Forall_forall. intros c Hc.
  apply in_map_iff in Hc as (x & <- & _).
  unfold cost_ok, clean. destruct (estimate_cost x); simpl; eauto.
Qed.

Lemma init_good (agents : list agent) (k : option Z) :
  good_state (dict_get agent_key_eqb (init_map agents []) k).
Proof.
  destruct (init_entry agents k) as [->| ->].
  - now left.
  - right. right. exists (PyInt 0). split; [reflexivity | now left].
Qed.

Lemma claims_loop_raise (claims : list claim) :
  forall (d : dict (option Z) pyval) (self self' : SimpleDataTool) (e : exn),
    for_each claims d add_claim self = (Raise e, self') ->
    exists k,
      key_run (dict_get agent_key_eqb d k) (costs_of_key k claims) = Raise e.
Proof.
  induction claims as [|c claims IH]; intros d self self' e Hrun;
    [discriminate|].
  rewrite for_each_cons, add_claim_step in Hrun.
  destruct (key_step (dict_get agent_key_eqb d (claim_key c))
              (get_estimate_cost (estimate_cost c))) as [v|e'] eqn:Hstep.
  - destruct (IH _ _ _ _ Hrun) as [k Hk]. exists k.
    rewrite costs_of_key_cons.
    destruct (agent_key_eqb (claim_key c) k) eqn:E.
    + apply agent_key_eqb_eq in E. subst k. cbn [key_run]. rewrite Hstep.
      now rewrite (dict_get_set_same agent_key_eqb agent_key_eqb_eq) in Hk.
    + rewrite (dict_get_set_other agent_key_eqb agent_key_eqb_eq) in Hk;
        [exact Hk|].
      intro H. apply agent_key_eqb_eq in H. congruence.
  - injection Hrun as <- _. exists (claim_key c).
    rewrite costs_of_key_cons, (proj2 (agent_key_eqb_eq _ _) eq_refl).
    cbn [key_run]. now rewrite Hstep.
Qed.

Lemma map_filter_split {X Y} (f : X -> Y) (p : X -> bool) (l : list X) :
  forall (pre : list Y) (c : Y) (post : list Y),
    map f (filter p l) = pre ++ c :: post ->
    exists l1 x l2,
      l = l1 ++ x :: l2 /\ p x = true /\ f x = c
      /\ map f (filter p l1) = pre /\ map f (filter p l2) = post.
Proof.
  induction l as [|y l IH]; intros pre c post H.
  - destruct pre; discriminate.
  - cbn [filter] in H. destruct (p y) eqn:E.
    + destruct pre as [|z pre]; cbn [map app] in H; injection H as Hy Hrest.
      * exists [], y, l. cbn [filter map app]. auto.
      * destruct (IH _ _ _ Hrest) as (l1 & x & l2 & -> & Hx & Hfx & H1 & H2).
        exists (y :: l1), x, l2. cbn [filter]. rewrite E. cbn [map].
        repeat split; auto. now rewrite H1, Hy.
    + destruct (IH _ _ _ H) as (l1 & x & l2 & -> & Hx & Hfx & H1 & H2).
      exists (y :: l1), x, l2. cbn [filter]. rewrite E. auto.
Qed.

Lemma build_map_of_loop (round2 : float -> float) (self s1 : SimpleDataTool)
    (r : result (dict (option Z) pyval)) :
  for_each (claim_data self) (init_map (agent_data self) []) add_claim self
  = (r, s1) ->
  match r with
  | Ok d1 =>
      exists m,
        build_map_of_agents_to_total_claim_cost round2 self = (Ok m, s1)
  | Raise e =>
      build_map_of_agents_to_total_claim_cost round2 self = (Raise e, s1)
  end.
Proof.
  intro Hloop.
  assert (Hrun : build_map_of_agents_to_total_claim_cost round2 self
                 = match r with
                   | Ok d1 =>
                       for_each (dict_items d1) d1
                         (fun agent_to_total_claim_cost '(agent_id, total_cost) =>
                           if is_not_none total_cost
                           then rounded <- lift (py_round2 round2 total_cost) ;;
                                ret (dict_set agent_key_eqb
                                       agent_to_total_claim_cost
                                       agent_id rounded)
                           else ret agent_to_total_claim_cost) s1
                   | Raise e => (Raise e, s1)
                   end).
  { unfold build_map_of_agents_to_total_claim_cost.
    unfold bind at 1, self_agent_data. unfold bind at 1.
    rewrite init_loop. unfold bind at 1, self_claim_data. unfold bind at 1.
    fold_add_claim.
    match goal with
    | |- context [@for_each ?X ?A ?cs ?d0 add_claim ?s] =>
        replace (@for_each X A cs d0 add_claim s) with (r, s1)
          by (symmetry; exact Hloop)
    end.
    now destruct r. }
  rewrite Hrun. destruct r as [d1|e]; [|reflexivity].
  destruct (claims_loop_ok _ _ _ _ _ Hloop) as [Hnd _].
  assert (Hnd1 : NoDup (dict_keys d1)).
  { apply Hnd, NoDup_init_map. constructor. }
  destruct (round_loop round2 s1 d1 d1 Hnd1) as (d' & Hround & _).
  exists d'. exact Hround.
Qed.

Lemma conflict_at_key (agents : list agent) (claims : list claim) :
  conflict agents claims ->
  exists k,
    key_conflict (dict_get agent_key_eqb (init_map agents []) k)
                 (costs_of_key k claims).
Proof.
  intros (pre & c1 & mid & c2 & post & -> & Hkey & Hpoison & Hcost).
  exists (claim_key c2).
  set (p := fun c => agent_key_eqb (claim_key c) (claim_key c2)).
  set (f := fun c => get_estimate_cost (estimate_cost c)).
  assert (Hp1 : p c1 = true) by (subst p; now apply agent_key_eqb_eq).
  assert (Hp2 : p c2 = true) by (subst p; now apply agent_key_eqb_eq).
  exists (map f (filter p pre) ++ f c1 :: map f (filter p mid)), (f c2),
    (map f (filter p post)).
  split; [|split].
  - unfold costs_of_key, claims_of_key. fold p. fold f.
    rewrite filter_app. cbn [filter]. rewrite Hp1, filter_app. cbn [filter].
    rewrite Hp2, map_app. cbn [map]. rewrite map_app. cbn [map].
    now rewrite <- app_assoc.
  - subst f. cbv beta.
    destruct (estimate_cost c2); first [reflexivity | congruence].
  - right. destruct Hpoison as [Hnull|Hunknown].
    + right. apply in_or_app. right. left. subst f. cbv beta.
      now rewrite Hnull.
    + left. split.
      * apply init_unknown. intros a Ha Hin. apply Hunknown.
        exists a. split; [congruence | exact Hin].
      * intro H. now destruct (map f (filter p pre)).
Qed.

Lemma key_conflict_gives_conflict (agents : list agent) (claims : list claim)
    (k : option Z) :
  key_conflict (dict_get agent_key_eqb (init_map agents []) k)
               (costs_of_key k claims) ->
  conflict agents claims.
Proof.
  intros (P & c & Q & Hcosts & Hc & Hreason).
  unfold costs_of_key, claims_of_key in Hcosts.
  destruct (map_filter_split _ _ _ _ _ _ Hcosts)
    as (l1 & x & l2 & -> & Hx & Hfx & HP & _).
  apply agent_key_eqb_eq in Hx.
  assert (Hc1 : exists c1, In c1 l1 /\ claim_key c1 = k /\ poisons agents c1).
  { destruct Hreason as [H|[[Hinit HP0]|Hnone]].
    - destruct (init_entry agents k) as [E|E]; rewrite E in H; discriminate.
    - destruct (filter (fun c0 => agent_key_eqb (claim_key c0) k) l1)
        as [|c1 rest] eqn:F; [subst P; now contradiction HP0|].
      assert (Hin : In c1 (filter (fun c0 => agent_key_eqb (claim_key c0) k) l1))
        by (rewrite F; now left).
      apply filter_In in Hin as [Hin Hk]. apply agent_key_eqb_eq in Hk.
      exists c1. split; [exact Hin | split; [exact Hk|]].
      right. intros (a & Ha & Hids).
      rewrite <- Hk, Ha, (init_known _ _ Hids) in Hinit. discriminate.
    - rewrite <- HP in Hnone. apply in_map_iff in Hnone as (c1 & Hcost & Hin).
      apply filter_In in Hin as [Hin Hk]. apply agent_key_eqb_eq in Hk.
      exists c1. split; [exact Hin | split; [exact Hk|]].
      left. destruct (estimate_cost c1); simpl in Hcost; congruence. }
  destruct Hc1 as (c1 & Hin & Hk & Hpoison).
  apply in_split in Hin as (pre & mid & ->).
  exists pre, c1, mid, x, l2. split; [|split; [congruence | split]].
  - now rewrite <- app_assoc.
  - exact Hpoison.
  - intro Hnull. rewrite <- Hfx, Hnull in Hc. discriminate.
Qed.

Lemma build_map_raises (round2 : float -> float) (self : SimpleDataTool)
    (e : exn) :
  fst (build_map_of_agents_to_total_claim_cost round2 self) = Raise e ->
  e = TypeError /\ conflict (agent_data self) (claim_data self).
Proof.
  intro Hraise.
  destruct (for_each (claim_data self) (init_map (agent_data self) [])
              add_claim self) as [[d1|e'] s1] eqn:E;
    pose proof (build_map_of_loop round2 self s1 _ E) as Hloop;
    cbv beta iota in Hloop.
  - destruct Hloop as [m Hm]. rewrite Hm in Hraise. discriminate.
  - rewrite Hloop in Hraise. cbn [fst] in Hraise. injection Hraise as ->.
    destruct (claims_loop_raise _ _ _ _ _ E) as [k Hk].
    destruct (key_run_raises _ _ _ (init_good _ k) (costs_of_key_ok k _) Hk)
      as [He Hconf].
    split; [exact He|]. now apply key_conflict_gives_conflict with k.
Qed.

(** X17: building the agent map raises nothing but TypeError, and raises it
    exactly when two claims are in conflict: they have the same agent key
    (an id, or None for a missing id), the earlier one has a null cost or a
    key that is no id of the agent collection, and the later one has a cost
    that is not null.  On all other data the map is returned. *)
Theorem agent_map_raises_iff_conflict :
  forall (round2 : float -> float) (self : SimpleDataTool),
    (forall e,
        fst (build_map_of_agents_to_total_claim_cost round2 self) = Raise e
        <-> e = TypeError /\ conflict (agent_data self) (claim_data self))
    /\ ((exists m,
            fst (build_map_of_agents_to_total_claim_cost round2 self) = Ok m)
        \/ fst (build_map_of_agents_to_total_claim_cost round2 self)
           = Raise TypeError).
Proof.
  intros round2 self.
  assert (Hcases : (exists m,
                       fst (build_map_of_agents_to_total_claim_cost round2 self)
                       = Ok m)
                   \/ fst (build_map_of_agents_to_total_claim_cost round2 self)
                      = Raise TypeError).
  { destruct (fst (build_map_of_agents_to_total_claim_cost round2 self))
      as [m|e] eqn:E; [left; now exists m|].
    right. f_equal. now apply (build_map_raises round2 self e). }
  split; [|exact Hcases].
  intro e. split; [apply build_map_raises|].
  intros [-> Hconf].
  destruct Hcases as [[m Hm]|Hraise]; [|exact Hraise].
  exfalso. apply conflict_at_key in Hconf as [k Hk].
  destruct Hk as (pre & c & post & Hcosts & Hc & Hreason).
  apply fst_run in Hm as [self' Hm].
  destruct (build_map_ok round2 self self' m Hm k) as (r & Hrun & _).
  assert (Hok : Forall cost_ok pre).
  { pose proof (costs_of_key_ok k (claim_data self)) as H.
    rewrite Hcosts in H. now apply Forall_app in H as [H _]. }
  rewrite Hcosts, (key_conflict_raises pre c post Hc _ (init_good _ k) Hok
                                       Hreason) in Hrun.
  discriminate.
Qed.



(** ** Queries in any order *)

Lemma after_queries_same (round2 : float -> float) (qs : list query) :
  forall self, after_queries round2 qs self = self.
Proof.
  unfold after_queries. induction qs as [|q qs IH]; intro self; simpl;
    [reflexivity|].
  now rewrite (call_read_only round2 q self), IH.
Qed.

(** X19: the queries can be asked in any order: after any sequence of
    queries, returning or raising, the instance is as it was and a query
    gives the result it gives when asked first. *)
Theorem queries_in_any_order :
  forall (round2 : float -> float) (qs : list query) (q : query)
         (self : SimpleDataTool),
    after_queries round2 qs self = self
    /\ fst (call round2 q (after_queries round2 qs self))
       = fst (call round2 q self).
Proof.
  intros round2 qs q self.
  now rewrite after_queries_same.
Qed.
